(** * GSeam: the Fusion 360 G-code post-merge script [f360_seam.py]

    A shallow embedding of the line-classification and reassembly pipeline
    ([extract_header], [extract_body], [is_important_comment],
    [clean_and_renumber], [validate_output], [main]) together with the
    properties stated about it.

    Modelling conventions.
    - A Python [str] is a list of characters; a character is a code point
      below 256 ([ascii]), which covers every character the patterns of the
      script mention.
    - A text file is its content, one [str]; [readlines] is Python's
      text-mode [readlines()] with universal newlines.
    - The statistics object is mutated in place by the script; here it is
      threaded through the functions explicitly.
    - [logger.write] calls only produce trace output and are left out. *)

From Stdlib Require Import Ascii String ZArith Lia Bool Arith List.
From Stdlib Require Import Numbers.DecimalString.
From Stdlib Require Import Sorting.Sorted Sorting.Permutation.
Import ListNotations.

(** ** Python strings *)

Module Py.

Definition str := list ascii.

(** A literal, and a literal followed by a line feed (the shape of a line
    that [readlines] returns). *)
Definition s (x : string) : str := list_ascii_of_string x.

Definition LF : ascii := ascii_of_nat 10.
Definition CR : ascii := ascii_of_nat 13.
Definition TAB : ascii := ascii_of_nat 9.
Definition SP : ascii := ascii_of_nat 32.

Definition ln (x : string) : str := s x ++ [LF].

Definition code (c : ascii) : nat := nat_of_ascii c.

(** [str.isspace] on one character, which is also the class [\s] of [re]
    for [str] patterns: TAB, LF, VT, FF, CR, FS, GS, RS, US, space, NEL and
    the no-break space. *)
Definition is_space (c : ascii) : bool :=
  ((9 <=? code c) && (code c <=? 13))
  || ((28 <=? code c) && (code c <=? 32))
  || (code c =? 133) || (code c =? 160).

(** The class [\d]. *)
Definition is_digit (c : ascii) : bool :=
  (48 <=? code c) && (code c <=? 57).

(** The class [[ \t]]. *)
Definition is_blank (c : ascii) : bool :=
  (code c =? 32) || (code c =? 9).

Fixpoint dropWhile (p : ascii -> bool) (x : str) : str :=
  match x with
  | [] => []
  | c :: t => if p c then dropWhile p t else x
  end.

Definition lstrip (x : str) : str := dropWhile is_space x.
Definition rstrip (x : str) : str := rev (dropWhile is_space (rev x)).
Definition strip (x : str) : str := rstrip (lstrip x).

Fixpoint startswith (p x : str) : bool :=
  match p, x with
  | [], _ => true
  | a :: p', b :: x' => Ascii.eqb a b && startswith p' x'
  | _ :: _, [] => false
  end.

(** [sub in x]. *)
Fixpoint contains (sub x : str) : bool :=
  startswith sub x ||
  match x with
  | [] => false
  | _ :: t => contains sub t
  end.

Fixpoint str_eqb (x y : str) : bool :=
  match x, y with
  | [], [] => true
  | a :: x', b :: y' => Ascii.eqb a b && str_eqb x' y'
  | _, _ => false
  end.

(** [str.lower] on one character: the letters A-Z and the upper-case
    letters of the Latin-1 block (all of 192..222 but the multiplication
    sign 215) move 32 places up. *)
Definition lower_char (c : ascii) : ascii :=
  if ((65 <=? code c) && (code c <=? 90))
     || ((192 <=? code c) && (code c <=? 222) && negb (code c =? 215))
  then ascii_of_nat (code c + 32)
  else c.

Definition lower (x : str) : str := map lower_char x.

(** [str(n)] for an integer. *)
Definition str_of_Z (n : Z) : str :=
  list_ascii_of_string (NilZero.string_of_int (Z.to_int n)).

Definition str_of_nat (n : nat) : str := str_of_Z (Z.of_nat n).

(** Universal newlines: on reading, CR LF and a lone CR become LF. *)
Fixpoint universal_newlines (x : str) : str :=
  match x with
  | [] => []
  | c :: t =>
      if Ascii.eqb c CR then
        match t with
        | d :: t' =>
            if Ascii.eqb d LF then LF :: universal_newlines t'
            else LF :: universal_newlines t
        | [] => [LF]
        end
      else c :: universal_newlines t
  end.

(** Cut a text after every line feed, keeping the line feeds. *)
Fixpoint splitlines (x : str) : list str :=
  match x with
  | [] => []
  | c :: t =>
      if Ascii.eqb c LF then [c] :: splitlines t
      else match splitlines t with
           | [] => [[c]]
           | l :: ls => (c :: l) :: ls
           end
  end.

(** [f.readlines()] on a file opened in text mode. *)
Definition readlines (content : str) : list str :=
  splitlines (universal_newlines content).

(** [f.writelines(lines)] appends the lines as they are. *)
Definition writelines (lines : list str) : str := concat lines.

End Py.

(** ** The regular expressions of the script

    The patterns of the script are sequences of literals and of repeated
    character classes, all anchored at the start by [^].  [re.match] tries
    the pattern at the start of its argument and accepts any continuation.
    [run] consumes the pieces from left to right, taking the longest run of a
    repeated class and taking an optional literal when it is there; [lang] is
    the language of the pattern, and [RegexFacts.re_match_lang] shows that the
    two agree on every pattern in which a repetition is never followed by a
    character of its own class. *)

Module Re.
Import Py.

Inductive piece : Type :=
| Lit (p : string)            (* the characters of [p] *)
| Plus (c : ascii -> bool)    (* [c+] *)
| Star (c : ascii -> bool)    (* [c*] *)
| Opt (p : string).           (* [p?] *)

Definition regex := list piece.

Fixpoint run (r : regex) (x : str) : option str :=
  match r with
  | [] => Some x
  | Lit p :: rest =>
      if startswith (s p) x then run rest (skipn (length (s p)) x) else None
  | Plus c :: rest =>
      match x with
      | a :: _ => if c a then run rest (dropWhile c x) else None
      | [] => None
      end
  | Star c :: rest => run rest (dropWhile c x)
  | Opt p :: rest =>
      if startswith (s p) x then run rest (skipn (length (s p)) x)
      else run rest x
  end.

Definition isSome {A} (o : option A) : bool :=
  match o with Some _ => true | None => false end.

(** [re.match(r, x)] as a truth value. *)
Definition re_match (r : regex) (x : str) : bool := isSome (run r x).

(** [re.sub(r, '', x)] for a pattern that starts with [^]: the one match at
    the start of [x] is removed, and [x] is returned as it is when there is
    none. *)
Definition sub_empty (r : regex) (x : str) : str :=
  match run r x with Some rest => rest | None => x end.

(** The words of a pattern. *)
Inductive lang : regex -> str -> Prop :=
| lang_end : lang [] []
| lang_lit p r y : lang r y -> lang (Lit p :: r) (s p ++ y)
| lang_plus c r w y :
    w <> [] -> forallb c w = true -> lang r y -> lang (Plus c :: r) (w ++ y)
| lang_star c r w y :
    forallb c w = true -> lang r y -> lang (Star c :: r) (w ++ y)
| lang_opt_some p r y : lang r y -> lang (Opt p :: r) (s p ++ y)
| lang_opt_none p r y : lang r y -> lang (Opt p :: r) y.

(** The characters a word of the pattern can start with. *)
Fixpoint first (r : regex) (a : ascii) : bool :=
  match r with
  | [] => false
  | Lit p :: rest =>
      match s p with
      | [] => first rest a
      | c :: _ => Ascii.eqb c a
      end
  | Plus c :: _ => c a
  | Star c :: rest => c a || first rest a
  | Opt p :: rest =>
      match s p with
      | [] => first rest a
      | c :: _ => Ascii.eqb c a || first rest a
      end
  end.

Definition all_chars : list ascii := map ascii_of_nat (seq 0 256).

(** No repetition is followed by a character of its class, and no optional
    literal by its own first character: the pattern never has to give back
    what it has taken. *)
Fixpoint deterministic (r : regex) : bool :=
  match r with
  | [] => true
  | Lit _ :: rest => deterministic rest
  | Plus c :: rest | Star c :: rest =>
      forallb (fun a => negb (c a && first rest a)) all_chars
      && deterministic rest
  | Opt p :: rest =>
      match s p with
      | [] => true
      | a :: _ => negb (first rest a)
      end
      && deterministic rest
  end.

End Re.

Module Patterns.
Import Py Re.

(** [^[ \t]*N20[ \t]+G53[ \t]+G0[ \t]+Z0\.] *)
Definition header_retract : regex :=
  [Star is_blank; Lit "N20"; Plus is_blank; Lit "G53"; Plus is_blank;
   Lit "G0"; Plus is_blank; Lit "Z0."].

(** [^N\d+[ \t]+T\d+[ \t]+M6] *)
Definition numbered_toolchange : regex :=
  [Lit "N"; Plus is_digit; Plus is_blank; Lit "T"; Plus is_digit;
   Plus is_blank; Lit "M6"].

(** [^N?\d*\s*T\d+\s+M6] *)
Definition toolchange : regex :=
  [Opt "N"; Star is_digit; Star is_space; Lit "T"; Plus is_digit;
   Plus is_space; Lit "M6"].

(** [^N\d+[ \t]*] *)
Definition sequence_number : regex :=
  [Lit "N"; Plus is_digit; Star is_blank].

End Patterns.

(** ** The script *)

Module Seam.
Import Py Re.

(** [class ScriptStats]. *)
Record ScriptStats := mkStats {
  comments_kept : nat;
  comments_removed : nat;
  toolchanges : nat;
  toolchange_calls : nat;
  lines_renumbered : nat;
  total_output_lines : nat;
  validation_errors : list str
}.

Definition new_stats : ScriptStats := mkStats 0 0 0 0 0 0 [].

(** The test that ends the header: [N20 G53 G0 Z0.] or a toolchange carrying
    a sequence number, both tried on the line as it was read. *)
Definition header_end (line : str) : bool :=
  re_match Patterns.header_retract line
  || re_match Patterns.numbered_toolchange line.

(** The loop of [extract_header]; [header_lines] is the accumulator and the
    first branch of the conditional is the [break]. *)
Fixpoint extract_header_loop (header_lines gcode_lines : list str) : list str :=
  match gcode_lines with
  | [] => header_lines
  | gcode_line :: rest =>
      let header_lines := header_lines ++ [gcode_line] in
      if header_end gcode_line then header_lines
      else extract_header_loop header_lines rest
  end.

Definition extract_header (gcode_lines : list str) : list str :=
  extract_header_loop [] gcode_lines.

(** The line that opens the body: [strip()] starts with an opening
    parenthesis, or the line is a toolchange carrying a sequence number. *)
Definition is_comment (line : str) : bool := startswith (s "(") (strip line).

Definition body_start (line : str) : bool :=
  is_comment line || re_match Patterns.numbered_toolchange line.

(** The line that closes the body: it contains [M30], or is [%] or [M2]
    once stripped. *)
Definition program_end (line : str) : bool :=
  contains (s "M30") line
  || str_eqb (strip line) (s "%")
  || str_eqb (strip line) (s "M2").

(** The loop of [extract_body], with its flag [operation_started] and its
    accumulator [body_lines]. *)
Fixpoint extract_body_loop (operation_started : bool) (body_lines gcode_lines : list str)
  : list str :=
  match gcode_lines with
  | [] => body_lines
  | gcode_line :: rest =>
      let operation_started :=
        if negb operation_started && body_start gcode_line then true
        else operation_started in
      if operation_started then
        if program_end gcode_line then body_lines
        else extract_body_loop operation_started (body_lines ++ [gcode_line]) rest
      else extract_body_loop operation_started body_lines rest
  end.

Definition extract_body (gcode_lines : list str) : list str :=
  extract_body_loop false [] gcode_lines.

(** The prefixes of [is_important_comment], in the order of the source. *)
Definition important_prefixes : list string :=
  ["(2d"; "(3d"; "(drill"; "(contour"; "(tool"; "(operation"; "(adaptive";
   "(facing"; "(slot"; "(bore"; "(tap"; "(thread"; "(change"]%string.

Definition is_important_comment (line : str) : bool :=
  let stripped := lower (strip line) in
  existsb (fun p => startswith (s p) stripped) important_prefixes.

(** The keyword arguments of [clean_and_renumber]. *)
Record Options := mkOptions {
  renumber : bool;
  keep_all_comments : bool;
  insert_toolchange_call : bool;
  toolchange_subroutine : str;
  start_n : Z;
  step_n : Z
}.

(** The local state of the loop of [clean_and_renumber]. *)
Record Loop := mkLoop {
  output_lines : list str;
  current_n : Z;
  last_was_toolcall : bool;
  stats : ScriptStats
}.

Definition is_toolchange (line : str) : bool :=
  re_match Patterns.toolchange (lstrip line).

(** [f'O <{toolchange_subroutine}> call\n'] *)
Definition call_line (name : str) : str :=
  s "O <" ++ name ++ s "> call" ++ [LF].

(** [f'N{current_n} {code_body}'] *)
Definition numbered_line (n : Z) (line : str) : str :=
  let code_body := sub_empty Patterns.sequence_number (lstrip line) in
  s "N" ++ str_of_Z n ++ s " " ++ code_body.

Definition emit (st : Loop) (line : str) : Loop :=
  mkLoop (output_lines st ++ [line]) (current_n st) (last_was_toolcall st) (stats st).

Definition with_stats (st : Loop) (f : ScriptStats -> ScriptStats) : Loop :=
  mkLoop (output_lines st) (current_n st) (last_was_toolcall st) (f (stats st)).

Definition incr_kept (t : ScriptStats) : ScriptStats :=
  mkStats (S (comments_kept t)) (comments_removed t) (toolchanges t)
          (toolchange_calls t) (lines_renumbered t) (total_output_lines t)
          (validation_errors t).

Definition incr_removed (t : ScriptStats) : ScriptStats :=
  mkStats (comments_kept t) (S (comments_removed t)) (toolchanges t)
          (toolchange_calls t) (lines_renumbered t) (total_output_lines t)
          (validation_errors t).

Definition incr_toolchanges (t : ScriptStats) : ScriptStats :=
  mkStats (comments_kept t) (comments_removed t) (S (toolchanges t))
          (toolchange_calls t) (lines_renumbered t) (total_output_lines t)
          (validation_errors t).

Definition incr_calls (t : ScriptStats) : ScriptStats :=
  mkStats (comments_kept t) (comments_removed t) (toolchanges t)
          (S (toolchange_calls t)) (lines_renumbered t) (total_output_lines t)
          (validation_errors t).

Definition incr_renumbered (t : ScriptStats) : ScriptStats :=
  mkStats (comments_kept t) (comments_removed t) (toolchanges t)
          (toolchange_calls t) (S (lines_renumbered t)) (total_output_lines t)
          (validation_errors t).

Definition set_total (n : nat) (t : ScriptStats) : ScriptStats :=
  mkStats (comments_kept t) (comments_removed t) (toolchanges t)
          (toolchange_calls t) (lines_renumbered t) n (validation_errors t).

Definition set_errors (e : list str) (t : ScriptStats) : ScriptStats :=
  mkStats (comments_kept t) (comments_removed t) (toolchanges t)
          (toolchange_calls t) (lines_renumbered t) (total_output_lines t) e.

Definition set_toolcall (b : bool) (st : Loop) : Loop :=
  mkLoop (output_lines st) (current_n st) b (stats st).

Definition advance (step : Z) (st : Loop) : Loop :=
  mkLoop (output_lines st) (current_n st + step) (last_was_toolcall st) (stats st).

(** The three stages of the loop body for a line that is not a comment. *)
Definition insert_call (o : Options) (line : str) (st : Loop) : Loop :=
  if insert_toolchange_call o && is_toolchange line then
    set_toolcall true
      (with_stats (emit st (call_line (toolchange_subroutine o))) incr_calls)
  else set_toolcall false st.

Definition count_toolchange (line : str) (st : Loop) : Loop :=
  if is_toolchange line then with_stats st incr_toolchanges else st.

Definition renumber_line (o : Options) (line : str) (st : Loop) : Loop :=
  if renumber o && startswith (s "N") (lstrip line) then
    advance (step_n o)
      (with_stats (emit st (numbered_line (current_n st) line)) incr_renumbered)
  else emit st line.

(** One iteration of the loop of [clean_and_renumber]; the comment branch
    ends in [continue]. *)
Definition process_line (o : Options) (st : Loop) (line : str) : Loop :=
  if is_comment line then
    if keep_all_comments o || is_important_comment line then
      with_stats (emit st line) incr_kept
    else with_stats st incr_removed
  else
    renumber_line o line (count_toolchange line (insert_call o line st)).

Definition run_lines (o : Options) (st : Loop) (lines : list str) : Loop :=
  fold_left (process_line o) lines st.

(** [clean_and_renumber] returns the output lines and leaves its counts in
    the statistics. *)
Definition enter (o : Options) (t : ScriptStats) : Loop :=
  mkLoop [] (start_n o) false t.

Definition leave (st : Loop) : list str * ScriptStats :=
  (output_lines st, set_total (length (output_lines st)) (stats st)).

Definition clean_and_renumber (lines : list str) (t : ScriptStats) (o : Options)
  : list str * ScriptStats :=
  leave (run_lines o (enter o t) lines).

(** The diagnostics of [validate_output]. *)
Definition err_no_percent : str := s "Output does not end with %".
Definition err_no_m30 : str := s "No M30 found in output (should end program)".
Definition err_multiple_m30 : str := s "Multiple M30 lines found in output".
Definition err_mismatch (found counted : nat) : str :=
  s "Internal error: toolchange count mismatch (" ++ str_of_nat found
  ++ s " vs " ++ str_of_nat counted ++ s ")".

Definition count (p : str -> bool) (lines : list str) : nat :=
  length (filter p lines).

(** [validate_output]; [output_lines[-1]] raises [IndexError] on an empty
    list, which is the [None] here. *)
Definition validate_output (out : list str) (t : ScriptStats)
  : option (list str * ScriptStats) :=
  match rev out with
  | [] => None
  | last_line :: _ =>
      let e1 := if negb (str_eqb (strip last_line) (s "%")) then [err_no_percent] else [] in
      let m30_count := count (contains (s "M30")) out in
      let e2 := if m30_count =? 0 then [err_no_m30] else [] in
      let e3 := if 1 <? m30_count then [err_multiple_m30] else [] in
      let t_toolchange_lines := count is_toolchange out in
      let e4 := if negb (t_toolchange_lines =? toolchanges t)
                then [err_mismatch t_toolchange_lines (toolchanges t)] else [] in
      let errors := e1 ++ e2 ++ e3 ++ e4 in
      Some (errors, set_errors errors t)
  end.

(** The four lines written after the body. *)
Definition closing_block : list str :=
  [ln "M5"; ln "G53 G0 Z0."; ln "M30"; ln "%"].

(** The keyword arguments of [main] that reach the pipeline. *)
Record Settings := mkSettings {
  opt_renumber : bool;
  opt_keep_all_comments : bool;
  opt_insert_toolchange_call : bool;
  opt_toolchange_subroutine : str
}.

(** The command line's defaults. *)
Definition default_settings : Settings :=
  mkSettings true false false (s "toolchange").

Definition options_of (c : Settings) : Options :=
  mkOptions (opt_renumber c) (opt_keep_all_comments c)
            (opt_insert_toolchange_call c) (opt_toolchange_subroutine c) 10 10.

(** The first loop of [main]: the header of the first file and the bodies of
    all files, each file given by its content. *)
Definition header_of (files : list str) : list str :=
  match files with
  | [] => []
  | first :: _ => extract_header (readlines first)
  end.

Definition bodies_of (files : list str) : list str :=
  flat_map (fun content => extract_body (readlines content)) files.

(** What [main] writes to the output file. *)
Definition written (header_lines processed_lines : list str) : str :=
  writelines header_lines ++ [LF] ++ writelines processed_lines ++ [LF]
  ++ writelines closing_block.

(** The result of a run: the content of the output file, the lines read back
    from it, and the statistics after validation. *)
Record Run := mkRun {
  output_file : str;
  read_back : list str;
  final_stats : ScriptStats
}.

Definition main (input_files : list str) (c : Settings) : option Run :=
  let header_lines := header_of input_files in
  let all_operation_bodies := bodies_of input_files in
  let '(processed_lines, t) :=
    clean_and_renumber all_operation_bodies new_stats (options_of c) in
  let content := written header_lines processed_lines in
  let out := readlines content in
  match validate_output out t with
  | Some (_, t') => Some (mkRun content out t')
  | None => None
  end.

End Seam.

(** ** Cutting a list at the first element that passes a test *)

Module Cut.
Section Cut.
Context {A : Type} (p : A -> bool).

(** The elements before the first one that passes [p]. *)
Fixpoint before (l : list A) : list A :=
  match l with
  | [] => []
  | x :: t => if p x then [] else x :: before t
  end.

(** The first element that passes [p] and everything after it. *)
Fixpoint from (l : list A) : list A :=
  match l with
  | [] => []
  | x :: t => if p x then l else from t
  end.

(** The elements up to the first one that passes [p], that one included; the
    whole list when there is none. *)
Fixpoint through (l : list A) : list A :=
  match l with
  | [] => []
  | x :: t => if p x then [x] else x :: through t
  end.

End Cut.
End Cut.

(** ** The specification's reading of the pipeline

    The specification describes one classifier with five categories, tried in
    priority order, and the extractor in terms of it.  The script has no such
    function; the definitions of this module follow the specification's words
    and serve only to compare it with the script. *)

Module Spec.
Import Py Re.

Inductive category : Type :=
| comment
| toolchange
| sequenced_instruction
| terminator
| other.

Definition category_eqb (a b : category) : bool :=
  match a, b with
  | comment, comment | toolchange, toolchange
  | sequenced_instruction, sequenced_instruction
  | terminator, terminator | other, other => true
  | _, _ => false
  end.

(** Rule 2: [T<digits> M6], optionally preceded by whitespace, with or
    without a leading sequence number. *)
Definition bare_toolchange : regex :=
  [Lit "T"; Plus is_digit; Plus is_space; Lit "M6"].

Definition toolchange_test (line : str) : bool :=
  re_match (Lit "N" :: Plus is_digit :: Star is_space :: bare_toolchange)
           (lstrip line)
  || re_match bare_toolchange (lstrip line).

(** Rule 3: the trimmed content begins with [N] followed by digits. *)
Definition sequenced_pattern : regex := [Lit "N"; Plus is_digit].

(** Rule 4: the line contains the program-end code, or its trimmed content
    is the percent terminator or the alternate program-end code. *)
Definition terminator_test (line : str) : bool :=
  contains (s "M30") line
  || str_eqb (strip line) (s "%")
  || str_eqb (strip line) (s "M2").

Definition classify (line : str) : category :=
  if startswith (s "(") (strip line) then comment
  else if toolchange_test line then toolchange
  else if re_match sequenced_pattern (strip line) then sequenced_instruction
  else if terminator_test line then terminator
  else other.

Definition is_category (c : category) (line : str) : bool :=
  category_eqb (classify line) c.

(** The fixed sequence-numbered axis-zero rapid retract, [N20 G53 G0 Z0.]. *)
Definition retract_pattern : regex :=
  [Star is_blank; Lit "N20"; Plus is_blank; Lit "G53"; Plus is_blank;
   Lit "G0"; Plus is_blank; Lit "Z0."].

(** [extractHeader]: stop, inclusively, at the first retract or toolchange
    line. *)
Definition extract_header (lines : list str) : list str :=
  Cut.through
    (fun l => re_match retract_pattern l || is_category toolchange l) lines.

(** [extractBody]: start at the first comment or toolchange, stop before the
    first terminator. *)
Definition extract_body (lines : list str) : list str :=
  Cut.before (is_category terminator)
    (Cut.from (fun l => is_category comment l || is_category toolchange l) lines).




End Spec.

(** ** Names for what the normalizer does to a line *)

Module Lines.
Import Py Re Seam.

(** A comment that the normalizer keeps, and one that it drops. *)
Definition kept_comment (o : Options) (line : str) : bool :=
  is_comment line && (keep_all_comments o || is_important_comment line).

Definition dropped_comment (o : Options) (line : str) : bool :=
  is_comment line && negb (keep_all_comments o || is_important_comment line).

(** A line that takes a fresh sequence number. *)
Definition takes_number (o : Options) (line : str) : bool :=
  negb (is_comment line) && renumber o && startswith (s "N") (lstrip line).

(** What is written for a line that is not a comment when the counter
    stands at [n]. *)
Definition emitted (o : Options) (n : Z) (line : str) : str :=
  if renumber o && startswith (s "N") (lstrip line) then numbered_line n line
  else line.

(** The call line, when the option asks for it. *)
Definition call_before (o : Options) : list str :=
  if insert_toolchange_call o then [call_line (toolchange_subroutine o)] else [].

End Lines.

(** ** Names for the stages of a run *)

Module Stages.
Import Py Re Seam.

(** The normalized body stream of a run and the statistics that the
    normalizer leaves. *)
Definition processed (files : list str) (c : Settings) : list str :=
  fst (clean_and_renumber (bodies_of files) new_stats (options_of c)).

Definition counted (files : list str) (c : Settings) : ScriptStats :=
  snd (clean_and_renumber (bodies_of files) new_stats (options_of c)).


End Stages.

(** ** Sample programs *)

Module Samples.
Import Py Seam.

(** A program whose toolchange carries no sequence number. *)
Definition unnumbered_toolchange : list str :=
  [ln "G21"; ln "T1 M6"; ln "G1 X1"; ln "M30"].


(** Two lines that start with [N], the first without digits. *)
Definition n_without_digits : list str :=
  [ln "N G1 X1"; ln "N5 G0 Z1"].

(** An important and a generic comment. *)
Definition two_comments : list str :=
  [ln "(2D Contour)"; ln "(generic note)"].


(** The options of the command line with [--keep-all-comments]. *)
Definition keep_all : Options :=
  mkOptions true true false (s "toolchange") 10 10.

(** A file whose first toolchange comes before any [N20 G53 G0 Z0.], as its
    content. *)
Definition toolchange_in_header : str :=
  ln "%" ++ ln "N10 G90" ++ ln "N15 T1 M6" ++ ln "N20 G1 X1" ++ ln "N25 M30"
  ++ ln "%".

(** The options of the command line with [--insert-toolchange-call]. *)
Definition with_calls : Options :=
  mkOptions true false true (s "toolchange") 10 10.

End Samples.

(** ** Shapes of lines *)

Module Shapes.
Import Py Re Seam Lines.

(** What one iteration of the normalizer's loop appends to the output when
    the counter stands at [n]. *)
Definition written_for (o : Options) (n : Z) (line : str) : list str :=
  if is_comment line then
    if keep_all_comments o || is_important_comment line then [line] else []
  else
    (if is_toolchange line then call_before o else []) ++ [emitted o n line].

(** A sequenced instruction taken apart: white space, [N], the digits of the
    number, the blanks after the number and the rest of the line. *)
Record Sequenced := mkSequenced {
  indent : str;
  digits : str;
  gap : str;
  code_part : str
}.

Definition line_of (i : Sequenced) : str :=
  indent i ++ s "N" ++ digits i ++ gap i ++ code_part i.

Definition no_head (c : ascii -> bool) (x : str) : bool :=
  match x with
  | a :: _ => negb (c a)
  | [] => true
  end.

(** The parts are what they are meant to be: the number takes all the digits
    and the gap all the blanks that follow it. *)
Definition sequenced_ok (i : Sequenced) : bool :=
  forallb is_space (indent i)
  && negb (length (digits i) =? 0)
  && forallb is_digit (digits i)
  && forallb is_blank (gap i)
  && no_head is_digit (gap i ++ code_part i)
  && no_head is_blank (code_part i).

(** The line with the number [n] in place of its own. *)
Definition renumbered (n : Z) (i : Sequenced) : str :=
  s "N" ++ str_of_Z n ++ s " " ++ code_part i.

(** A character that is neither a line feed nor a carriage return. *)
Definition plain_char (a : ascii) : bool :=
  negb (Ascii.eqb a LF) && negb (Ascii.eqb a CR).

(** A line as [readlines] returns it when the file goes on after it: it ends
    in a line feed and holds no other line feed and no carriage return. *)
Definition complete_line (x : str) : bool :=
  match rev x with
  | [] => false
  | c :: t => Ascii.eqb c LF && forallb plain_char t
  end.



End Shapes.

(** ** More sample data *)

Module MoreSamples.
Import Py Seam Shapes.

(** Three sequenced instructions with numbers and spacing of their own. *)
Definition three_sequenced : list Sequenced :=
  [mkSequenced (s "") (s "5") (s " ") (ln "G90 G94");
   mkSequenced (s "  ") (s "007") (s "") (ln "T1 M6");
   mkSequenced [TAB] (s "120") [SP; TAB] (ln "G1 X1")].

(** A body with comments, a toolchange and a line already numbered. *)
Definition mixed_body : list str :=
  [ln "(2D CONTOUR)"; ln "(generic note)"; ln "N15 T1 M6"; ln "G1 X1";
   ln "  N7 G0 Z5"].

End MoreSamples.

(** ** The input files of directory mode *)

Module Files.
Import Py.

Fixpoint takeWhile (p : ascii -> bool) (x : str) : str :=
  match x with
  | [] => []
  | c :: t => if p c then c :: takeWhile p t else []
  end.

(** Two characters that [re.IGNORECASE] takes for the same. *)
Definition same_letter (a b : ascii) : bool :=
  Ascii.eqb (lower_char a) (lower_char b).

(** [\.ngc$] under [re.IGNORECASE], tried where the digits end: a dot, the
    three letters in either case, and then the end of the name or one line
    feed before it, which [$] lets pass. *)
Definition ngc_at_end (x : str) : bool :=
  match x with
  | d :: n :: g :: c :: rest =>
      Ascii.eqb d "."%char && same_letter n "n"%char && same_letter g "g"%char
      && same_letter c "c"%char
      && match rest with
         | [] => true
         | [e] => Ascii.eqb e LF
         | _ => false
         end
  | _ => false
  end.

(** [re.search(r'(\d+)(?=\.ngc$)', filename, re.IGNORECASE)]: the start
    positions are tried from the left; at a digit, [\d+] takes the whole run
    of digits, and giving digits back cannot help, since the lookahead would
    then see a digit.  The result is group 1 of the first match. *)
Fixpoint search_number (x : str) : option str :=
  match x with
  | [] => None
  | a :: t =>
      if is_digit a && ngc_at_end (dropWhile is_digit x)
      then Some (takeWhile is_digit x)
      else search_number t
  end.

(** [int(digits)] for a string of decimal digits.  Python refuses to convert
    more than 4300 digits and raises [ValueError]; this is the value for the
    runs within that limit, and the theorems about the number of a name state
    the limit. *)
Definition int_of_digits (x : str) : Z :=
  fold_left (fun acc c => (10 * acc + (Z.of_nat (code c) - 48))%Z) x 0%Z.

Definition extract_number_from_filename (filename : str) : Z :=
  match search_number filename with
  | Some group => int_of_digits group
  | None => (-1)%Z
  end.

(** [sorted(files, key=...)]: Python's sort is stable, so the result is the
    one of inserting the names, last one first, each before the first name
    whose key is not smaller. *)
Fixpoint insert_by (key : str -> Z) (x : str) (l : list str) : list str :=
  match l with
  | [] => [x]
  | y :: t => if (key x <=? key y)%Z then x :: l else y :: insert_by key x t
  end.

Definition sorted_by (key : str -> Z) (l : list str) : list str :=
  fold_right (insert_by key) [] l.

(** The order of the keys. *)
Definition le_key (key : str -> Z) (a b : str) : Prop := (key a <= key b)%Z.

(** [get_files_sorted_by_number], from the names that [glob] has found, in
    the order in which it has found them. *)
Definition get_files_sorted_by_number (found : list str) : list str :=
  filter (fun name => negb (extract_number_from_filename name =? -1)%Z)
         (sorted_by extract_number_from_filename found).

End Files.

(** ** Facts about the string primitives *)

Module PyFacts.
Import Py.

Lemma startswith_refl (x : str) : startswith x x = true.
Proof.
  induction x as [|c x IH]; simpl; [reflexivity|].
  now rewrite Ascii.eqb_refl, IH.
Qed.

Lemma startswith_app (p x : str) : startswith p (p ++ x) = true.
Proof.
  induction p as [|c p IH]; simpl; [reflexivity|].
  now rewrite Ascii.eqb_refl, IH.
Qed.

Lemma startswith_split (p x : str) :
  startswith p x = true -> exists r, x = p ++ r.
Proof.
  revert x; induction p as [|c p IH]; intros x H.
  - now exists x.
  - destruct x as [|d x]; simpl in H; [discriminate|].
    apply andb_true_iff in H as [Hc Hp].
    apply Ascii.eqb_eq in Hc; subst d.
    destruct (IH _ Hp) as [r ->]. now exists r.
Qed.

Lemma str_eqb_eq (x y : str) : str_eqb x y = true <-> x = y.
Proof.
  revert y; induction x as [|c x IH]; intros [|d y]; simpl; split; intro H;
    try reflexivity; try discriminate.
  - apply andb_true_iff in H as [Hc Hx].
    apply Ascii.eqb_eq in Hc; apply IH in Hx; now subst.
  - injection H as -> ->. rewrite Ascii.eqb_refl. now apply IH.
Qed.

Lemma contains_here (sub x : str) :
  startswith sub x = true -> contains sub x = true.
Proof. intro H. destruct x; simpl; simpl in H; now rewrite H. Qed.

Lemma contains_app (sub a b : str) : contains sub (a ++ sub ++ b) = true.
Proof.
  induction a as [|c a IH].
  - change ([] ++ sub ++ b) with (sub ++ b).
    apply contains_here, startswith_app.
  - simpl. rewrite IH. apply orb_true_r.
Qed.

(** The first character that [dropWhile] leaves fails the test. *)
Lemma dropWhile_head (p : ascii -> bool) (x : str) c t :
  dropWhile p x = c :: t -> p c = false.
Proof.
  induction x as [|d x IH]; simpl; [discriminate|].
  destruct (p d) eqn:E; [exact IH|].
  intro H; injection H as -> _. exact E.
Qed.

Lemma dropWhile_stop (p : ascii -> bool) c t :
  p c = false -> dropWhile p (c :: t) = c :: t.
Proof. intro H; simpl; now rewrite H. Qed.

Lemma dropWhile_keeps_last (p : ascii -> bool) (x : str) c :
  p c = false -> exists y, dropWhile p (x ++ [c]) = y ++ [c].
Proof.
  intro H. induction x as [|d x [y IH]]; simpl.
  - rewrite H. now exists [].
  - destruct (p d); [now exists y|]. now exists (d :: x).
Qed.

(** [rstrip] keeps a first character that is not white space. *)
Lemma rstrip_head c t :
  is_space c = false -> exists t', rstrip (c :: t) = c :: t'.
Proof.
  intro H. unfold rstrip. simpl rev.
  destruct (dropWhile_keeps_last is_space (rev t) c H) as [y ->].
  rewrite rev_app_distr. simpl. now exists (rev y).
Qed.

Lemma rstrip_nil : rstrip [] = [].
Proof. reflexivity. Qed.

(** [strip] and [lstrip] start with the same character. *)
Lemma strip_head (x : str) :
  match lstrip x with
  | [] => strip x = []
  | c :: _ => is_space c = false /\ exists t', strip x = c :: t'
  end.
Proof.
  unfold strip. destruct (lstrip x) as [|c t] eqn:E; [reflexivity|].
  pose proof (dropWhile_head _ _ _ _ E) as Hc. split; [exact Hc|].
  now apply rstrip_head.
Qed.

Lemma startswith_char_strip (a : ascii) (x : str) :
  startswith [a] (strip x) = startswith [a] (lstrip x).
Proof.
  pose proof (strip_head x) as H. destruct (lstrip x) as [|c t].
  - now rewrite H.
  - destruct H as [_ [t' ->]]. simpl. now rewrite !andb_true_r.
Qed.

(** A line that starts with a character that is not white space is its own
    [lstrip]. *)
Lemma lstrip_stop c t : is_space c = false -> lstrip (c :: t) = c :: t.
Proof. apply dropWhile_stop. Qed.

(** *** Reading back what was written *)







End PyFacts.

(** ** The patterns and their languages *)

Module RegexFacts.
Import Py Re PyFacts.

Lemma all_chars_complete (a : ascii) : In a all_chars.
Proof.
  unfold all_chars. rewrite <- (ascii_nat_embedding a).
  apply in_map, in_seq. pose proof (nat_ascii_bounded a). lia.
Qed.

Lemma startswith_skipn (p x : str) :
  startswith p x = true -> x = p ++ skipn (length p) x.
Proof.
  intro H. destruct (startswith_split p x H) as [r ->].
  now rewrite skipn_app, skipn_all, Nat.sub_diag.
Qed.

(** [dropWhile] takes a run of the class off the front. *)
Lemma dropWhile_run (c : ascii -> bool) (x : str) :
  exists w, x = w ++ dropWhile c x /\ forallb c w = true.
Proof.
  induction x as [|a x (w & Hx & Hw)]; [now exists []|].
  cbn [dropWhile]. destruct (c a) eqn:E; [|now exists []].
  exists (a :: w). cbn. rewrite E, Hw. split; [now f_equal | reflexivity].
Qed.

Lemma dropWhile_all (c : ascii -> bool) (w z : str) :
  forallb c w = true -> dropWhile c (w ++ z) = dropWhile c z.
Proof.
  induction w as [|a w IH]; [reflexivity|]. cbn.
  intro H. apply andb_true_iff in H as [Ha Hw]. rewrite Ha. now apply IH.
Qed.

(** What [run] consumes is a word of the pattern. *)
Lemma run_sound (r : regex) (x rest : str) :
  run r x = Some rest -> exists w, x = w ++ rest /\ lang r w.
Proof.
  revert x; induction r as [|[p|c|c|p] r IH]; intros x H; cbn [run] in H.
  - injection H as <-. exists []. split; [reflexivity | constructor].
  - destruct (startswith (s p) x) eqn:E; [|discriminate].
    destruct (IH _ H) as (w & Hw & Hl).
    exists (s p ++ w). split; [|now constructor].
    rewrite (startswith_skipn _ _ E) at 1. now rewrite Hw, app_assoc.
  - destruct x as [|a x]; [discriminate|].
    destruct (c a) eqn:E; [|discriminate].
    destruct (IH _ H) as (w & Hw & Hl).
    destruct (dropWhile_run c (a :: x)) as (v & Hv & Hc).
    exists (v ++ w). split; [rewrite Hv at 1; now rewrite Hw, app_assoc|].
    constructor; try assumption.
    intros ->. cbn [app dropWhile] in Hv. rewrite E in Hv.
    apply (f_equal (@length ascii)) in Hv. cbn in Hv.
    destruct (dropWhile_run c x) as (u & Hu & _).
    apply (f_equal (@length ascii)) in Hu. rewrite length_app in Hu. lia.
  - destruct (IH _ H) as (w & Hw & Hl).
    destruct (dropWhile_run c x) as (v & Hv & Hc).
    exists (v ++ w). split; [rewrite Hv at 1; now rewrite Hw, app_assoc|].
    now constructor.
  - destruct (startswith (s p) x) eqn:E.
    + destruct (IH _ H) as (w & Hw & Hl).
      exists (s p ++ w). split; [|now apply lang_opt_some].
      rewrite (startswith_skipn _ _ E) at 1. now rewrite Hw, app_assoc.
    + destruct (IH _ H) as (w & Hw & Hl).
      exists w. split; [assumption | now apply lang_opt_none].
Qed.

(** A word of the pattern that is not empty starts with one of its first
    characters. *)
Lemma lang_first (r : regex) (w : str) :
  lang r w -> w = [] \/ exists a t, w = a :: t /\ first r a = true.
Proof.
  induction 1 as [|p r y _ IH|c r w y Hn Hw _ _|c r w y Hw _ IH
                  |p r y _ IH|p r y _ IH]; cbn [first].
  - now left.
  - destruct (s p) as [|a q]; [exact IH|].
    right. exists a, (q ++ y). now rewrite Ascii.eqb_refl.
  - destruct w as [|a w]; [contradiction|]. right. exists a, (w ++ y).
    cbn in Hw. apply andb_true_iff in Hw as [Ha _]. now split.
  - destruct w as [|a w].
    + destruct IH as [->|(a & t & -> & Ha)]; [now left|].
      right. exists a, t. rewrite Ha, orb_true_r. now split.
    + right. exists a, (w ++ y).
      cbn in Hw. apply andb_true_iff in Hw as [Ha _]. now rewrite Ha.
  - destruct (s p) as [|a q]; [exact IH|].
    right. exists a, (q ++ y). now rewrite Ascii.eqb_refl.
  - destruct IH as [->|(a & t & -> & Ha)]; [now left|].
    right. exists a, t. split; [reflexivity|].
    destruct (s p); [exact Ha|]. rewrite Ha. apply orb_true_r.
Qed.

Lemma disjoint_at (c f : ascii -> bool) (a : ascii) :
  forallb (fun a => negb (c a && f a)) all_chars = true ->
  f a = true -> c a = false.
Proof.
  intros H Hf. rewrite forallb_forall in H.
  specialize (H a (all_chars_complete a)). rewrite Hf, andb_true_r in H.
  now apply negb_true_iff in H.
Qed.

(** After a run of the class, a deterministic rest is matched where the run
    ends. *)
Lemma run_after_class (c : ascii -> bool) (r : regex) (y : str) :
  forallb (fun a => negb (c a && first r a)) all_chars = true ->
  lang r y ->
  (forall post, exists rest, run r (y ++ post) = Some rest) ->
  forall post, exists rest, run r (dropWhile c (y ++ post)) = Some rest.
Proof.
  intros Hd Hl IH post.
  destruct (lang_first r y Hl) as [->|(a & t & -> & Ha)].
  - apply (IH (dropWhile c post)).
  - cbn [app dropWhile]. rewrite (disjoint_at c (first r) a Hd Ha).
    apply (IH post).
Qed.

(** [run] finds every word of a deterministic pattern, whatever follows
    it. *)
Lemma run_complete (r : regex) (w : str) :
  lang r w -> deterministic r = true ->
  forall post, exists rest, run r (w ++ post) = Some rest.
Proof.
  induction 1 as [|p r y _ IH|c r w y Hn Hw Hl IH|c r w y Hw Hl IH
                  |p r y _ IH|p r y Hl IH]; cbn [deterministic]; intros Hd post.
  - now exists post.
  - cbn [run]. rewrite <- app_assoc, startswith_app.
    rewrite skipn_app, skipn_all, Nat.sub_diag. apply (IH Hd).
  - apply andb_true_iff in Hd as [Hc Hd]. cbn [run].
    destruct w as [|a w]; [contradiction|].
    rewrite <- app_assoc. cbn [app].
    pose proof Hw as Hw'. cbn in Hw'. apply andb_true_iff in Hw' as [Ha _].
    rewrite Ha. change (a :: w ++ y ++ post) with ((a :: w) ++ y ++ post).
    rewrite (dropWhile_all c _ _ Hw).
    apply (run_after_class c r y Hc Hl (IH Hd)).
  - apply andb_true_iff in Hd as [Hc Hd]. cbn [run].
    rewrite <- app_assoc, (dropWhile_all c _ _ Hw).
    apply (run_after_class c r y Hc Hl (IH Hd)).
  - apply andb_true_iff in Hd as [_ Hd]. cbn [run].
    rewrite <- app_assoc, startswith_app.
    rewrite skipn_app, skipn_all, Nat.sub_diag. apply (IH Hd).
  - apply andb_true_iff in Hd as [Hp Hd]. cbn [run].
    destruct (startswith (s p) (y ++ post)) eqn:E; [|apply (IH Hd)].
    destruct (s p) as [|a q] eqn:Ep; [apply (IH Hd)|].
    destruct (lang_first r y Hl) as [->|(b & t & -> & Hb)].
    + apply (IH Hd (skipn (length (a :: q)) post)).
    + cbn in E. apply andb_true_iff in E as [E _].
      apply Ascii.eqb_eq in E. subst b.
      rewrite Hb in Hp. discriminate Hp.
Qed.

(** [re.match] succeeds exactly when a word of the pattern starts the
    text. *)
Theorem re_match_lang (r : regex) (x : str) :
  deterministic r = true ->
  (re_match r x = true <-> exists w post, x = w ++ post /\ lang r w).
Proof.
  intro Hd. unfold re_match. split.
  - destruct (run r x) as [rest|] eqn:E; [|discriminate]. intros _.
    destruct (run_sound r x rest E) as (w & Hx & Hl). now exists w, rest.
  - intros (w & post & -> & Hl).
    destruct (run_complete r w Hl Hd post) as [rest ->]. reflexivity.
Qed.

(** The patterns of the script are deterministic. *)
Lemma header_retract_deterministic : deterministic Patterns.header_retract = true.
Proof. vm_compute. reflexivity. Qed.

Lemma numbered_toolchange_deterministic :
  deterministic Patterns.numbered_toolchange = true.
Proof. vm_compute. reflexivity. Qed.

Lemma toolchange_deterministic : deterministic Patterns.toolchange = true.
Proof. vm_compute. reflexivity. Qed.

Lemma sequence_number_deterministic :
  deterministic Patterns.sequence_number = true.
Proof. vm_compute. reflexivity. Qed.

(** What [re.sub] removes with the sequence-number pattern: the [N], all the
    digits after it and all the blanks after them. *)
Lemma dropWhile_stops (c : ascii -> bool) (x : str) :
  match x with a :: _ => c a = false | [] => True end -> dropWhile c x = x.
Proof. destruct x as [|a x]; [reflexivity|]. cbn. now intros ->. Qed.

Lemma sequence_number_removed (ds bs rest : str) :
  ds <> [] -> forallb is_digit ds = true -> forallb is_blank bs = true ->
  match bs ++ rest with a :: _ => is_digit a = false | [] => True end ->
  match rest with a :: _ => is_blank a = false | [] => True end ->
  sub_empty Patterns.sequence_number (s "N" ++ ds ++ bs ++ rest) = rest.
Proof.
  intros Hn Hd Hb Hbr Hr. unfold sub_empty, Patterns.sequence_number.
  cbn [run]. rewrite startswith_app, skipn_app, skipn_all, Nat.sub_diag.
  cbn [skipn app]. destruct ds as [|d ds]; [contradiction|].
  pose proof Hd as Hd'. cbn in Hd'. apply andb_true_iff in Hd' as [Hd0 _].
  cbn [app]. rewrite Hd0.
  change (d :: ds ++ bs ++ rest) with ((d :: ds) ++ bs ++ rest).
  rewrite (dropWhile_all _ _ _ Hd), (dropWhile_stops _ _ Hbr).
  now rewrite (dropWhile_all _ _ _ Hb), (dropWhile_stops _ _ Hr).
Qed.

End RegexFacts.

(** ** The segment extractor *)

Module ExtractFacts.
Import Py Re Seam.

Lemma extract_header_loop_through (acc lines : list str) :
  extract_header_loop acc lines = acc ++ Cut.through header_end lines.
Proof.
  revert acc; induction lines as [|l rest IH]; intro acc; simpl.
  - now rewrite app_nil_r.
  - destruct (header_end l); [reflexivity|].
    rewrite IH, <- app_assoc. reflexivity.
Qed.

Lemma extract_body_loop_started (acc lines : list str) :
  extract_body_loop true acc lines = acc ++ Cut.before program_end lines.
Proof.
  revert acc; induction lines as [|l rest IH]; intro acc; simpl.
  - now rewrite app_nil_r.
  - destruct (program_end l); [now rewrite app_nil_r|].
    rewrite IH, <- app_assoc. reflexivity.
Qed.

Lemma extract_body_loop_waiting (acc lines : list str) :
  extract_body_loop false acc lines
  = acc ++ Cut.before program_end (Cut.from body_start lines).
Proof.
  revert acc; induction lines as [|l rest IH]; intro acc.
  - simpl. now rewrite app_nil_r.
  - cbn [extract_body_loop Cut.from negb andb].
    destruct (body_start l); [|apply IH].
    cbn [Cut.before]. destruct (program_end l); [now rewrite app_nil_r|].
    rewrite extract_body_loop_started, <- app_assoc. reflexivity.
Qed.

(** Without a line that ends the header, the whole input is the header. *)
Lemma through_none {A} (p : A -> bool) (l : list A) :
  forallb (fun x => negb (p x)) l = true -> Cut.through p l = l.
Proof.
  induction l as [|x t IH]; simpl; [reflexivity|].
  destruct (p x); simpl; [discriminate|]. intro H. now rewrite IH.
Qed.

Lemma from_none {A} (p : A -> bool) (l : list A) :
  forallb (fun x => negb (p x)) l = true -> Cut.from p l = [].
Proof.
  induction l as [|x t IH]; simpl; [reflexivity|].
  destruct (p x); simpl; [discriminate|]. exact IH.
Qed.

Lemma before_none {A} (p : A -> bool) (l : list A) :
  forallb (fun x => negb (p x)) l = true -> Cut.before p l = l.
Proof.
  induction l as [|x t IH]; simpl; [reflexivity|].
  destruct (p x); simpl; [discriminate|]. intro H. now rewrite IH.
Qed.

(** The cut is a prefix, and the line it stops at is its last line. *)
Lemma through_prefix {A} (p : A -> bool) (l : list A) :
  exists rest, l = Cut.through p l ++ rest.
Proof.
  induction l as [|x t [rest IH]]; simpl.
  - now exists [].
  - destruct (p x); [now exists t|]. exists rest. simpl. now f_equal.
Qed.

Lemma header_prefix (lines : list str) :
  exists rest, lines = extract_header lines ++ rest.
Proof.
  rewrite (extract_header_loop_through [] lines : extract_header lines = _).
  apply through_prefix.
Qed.

End ExtractFacts.

(** ** Comments and the patterns *)

Module LineFacts.
Import Py Re Seam PyFacts.

Lemma is_comment_lstrip (line : str) :
  is_comment line = startswith (s "(") (lstrip line).
Proof. apply startswith_char_strip. Qed.



(** A one-character prefix names the first character. *)
Lemma startswith_one (a : string) (c : ascii) (x : str) :
  s a = [c] -> startswith (s a) x = true -> exists t, x = c :: t.
Proof.
  intros -> H. destruct x as [|d t]; [discriminate|].
  cbn [startswith] in H. rewrite andb_true_r in H.
  apply Ascii.eqb_eq in H. subst d. now exists t.
Qed.




Lemma comment_not_toolchange (line : str) :
  is_comment line = true -> is_toolchange line = false.
Proof.
  rewrite is_comment_lstrip. unfold is_toolchange. intro H.
  destruct (startswith_one "(" _ _ eq_refl H) as [t ->]. reflexivity.
Qed.

Lemma toolchange_not_comment (line : str) :
  is_toolchange line = true -> is_comment line = false.
Proof.
  intro H. destruct (is_comment line) eqn:E; [|reflexivity].
  apply comment_not_toolchange in E. congruence.
Qed.






(** The lines that the normalizer makes up are not comments. *)
Lemma call_line_not_comment (name : str) : is_comment (call_line name) = false.
Proof. rewrite is_comment_lstrip. reflexivity. Qed.

Lemma numbered_line_not_comment (n : Z) (line : str) :
  is_comment (numbered_line n line) = false.
Proof. rewrite is_comment_lstrip. reflexivity. Qed.

End LineFacts.

(** ** The stream normalizer *)

Module NormalizeFacts.
Import Py Re Seam Lines PyFacts LineFacts.

Lemma process_comment (o : Options) (st : Loop) (line : str) :
  is_comment line = true ->
  process_line o st line
  = if keep_all_comments o || is_important_comment line
    then with_stats (emit st line) incr_kept
    else with_stats st incr_removed.
Proof. intro H. unfold process_line. now rewrite H. Qed.

Lemma process_code (o : Options) (st : Loop) (line : str) :
  is_comment line = false ->
  process_line o st line
  = renumber_line o line (count_toolchange line (insert_call o line st)).
Proof. intro H. unfold process_line. now rewrite H. Qed.

(** What one iteration does to a line that is not a comment, field by
    field. *)
Lemma process_code_output (o : Options) (st : Loop) (line : str) :
  is_comment line = false ->
  output_lines (process_line o st line)
  = output_lines st
    ++ (if is_toolchange line then call_before o else [])
    ++ [emitted o (current_n st) line].
Proof.
  intro H. rewrite (process_code o st line H).
  unfold renumber_line, count_toolchange, insert_call, emitted, call_before.
  destruct (insert_toolchange_call o), (is_toolchange line),
    (renumber o && startswith (s "N") (lstrip line)); cbn;
    rewrite <- ?app_assoc; reflexivity.
Qed.

Lemma process_code_toolchanges (o : Options) (st : Loop) (line : str) :
  is_comment line = false ->
  toolchanges (stats (process_line o st line))
  = toolchanges (stats st) + (if is_toolchange line then 1 else 0).
Proof.
  intro H. rewrite (process_code o st line H).
  unfold renumber_line, count_toolchange, insert_call.
  destruct (insert_toolchange_call o), (is_toolchange line),
    (renumber o && startswith (s "N") (lstrip line)); cbn; lia.
Qed.

Lemma process_code_calls (o : Options) (st : Loop) (line : str) :
  is_comment line = false ->
  toolchange_calls (stats (process_line o st line))
  = toolchange_calls (stats st)
    + (if insert_toolchange_call o && is_toolchange line then 1 else 0).
Proof.
  intro H. rewrite (process_code o st line H).
  unfold renumber_line, count_toolchange, insert_call.
  destruct (insert_toolchange_call o), (is_toolchange line),
    (renumber o && startswith (s "N") (lstrip line)); cbn; lia.
Qed.

Lemma process_code_comments (o : Options) (st : Loop) (line : str) :
  is_comment line = false ->
  comments_kept (stats (process_line o st line)) = comments_kept (stats st)
  /\ comments_removed (stats (process_line o st line)) = comments_removed (stats st).
Proof.
  intro H. rewrite (process_code o st line H).
  unfold renumber_line, count_toolchange, insert_call.
  destruct (insert_toolchange_call o), (is_toolchange line),
    (renumber o && startswith (s "N") (lstrip line)); cbn; split; reflexivity.
Qed.

Lemma emitted_not_comment (o : Options) (n : Z) (line : str) :
  is_comment line = false -> is_comment (emitted o n line) = false.
Proof.
  intro H. unfold emitted.
  destruct (renumber o && startswith (s "N") (lstrip line)); [|exact H].
  apply numbered_line_not_comment.
Qed.

Lemma call_before_no_comment (o : Options) : filter is_comment (call_before o) = [].
Proof.
  unfold call_before. destruct (insert_toolchange_call o); [|reflexivity].
  simpl. now rewrite call_line_not_comment.
Qed.

(** The output only grows. *)
Lemma process_line_extends (o : Options) (st : Loop) (line : str) :
  exists more, output_lines (process_line o st line) = output_lines st ++ more.
Proof.
  destruct (is_comment line) eqn:E.
  - rewrite (process_comment o st line E).
    destruct (keep_all_comments o || is_important_comment line).
    + now exists [line].
    + exists []. cbn. now rewrite app_nil_r.
  - rewrite (process_code_output o st line E). eauto.
Qed.

Lemma run_lines_extends (o : Options) (lines : list str) (st : Loop) :
  exists more, output_lines (run_lines o st lines) = output_lines st ++ more.
Proof.
  revert st; induction lines as [|l rest IH]; intro st.
  - exists []. cbn. now rewrite app_nil_r.
  - cbn [run_lines fold_left]. destruct (IH (process_line o st l)) as [m1 H1].
    destruct (process_line_extends o st l) as [m2 H2].
    unfold run_lines in H1. rewrite H1, H2, <- app_assoc. eauto.
Qed.

Lemma run_lines_app (o : Options) (a b : list str) (st : Loop) :
  run_lines o st (a ++ b) = run_lines o (run_lines o st a) b.
Proof. apply fold_left_app. Qed.

(** The comments of the output are the kept comments of the input, and the
    two comment counters count the kept and the dropped ones. *)
Lemma run_lines_comments (o : Options) (lines : list str) (st : Loop) :
  let st' := run_lines o st lines in
  filter is_comment (output_lines st')
  = filter is_comment (output_lines st) ++ filter (kept_comment o) lines
  /\ comments_kept (stats st')
     = comments_kept (stats st) + count (kept_comment o) lines
  /\ comments_removed (stats st')
     = comments_removed (stats st) + count (dropped_comment o) lines.
Proof.
  revert st; induction lines as [|l rest IH]; intro st.
  - cbn. rewrite app_nil_r. repeat split; lia.
  - cbn [run_lines fold_left]. specialize (IH (process_line o st l)).
    cbv zeta in IH. unfold run_lines in IH. destruct IH as (Ho & Hk & Hr).
    cbv zeta. rewrite Ho, Hk, Hr. clear Ho Hk Hr.
    unfold count, kept_comment, dropped_comment. cbn [filter].
    destruct (is_comment l) eqn:E.
    + rewrite (process_comment o st l E).
      destruct (keep_all_comments o || is_important_comment l);
        cbn [emit with_stats output_lines stats comments_kept comments_removed
             incr_kept incr_removed andb negb length].
      * rewrite filter_app. cbn [filter]. rewrite E, <- app_assoc.
        cbn [app length]. repeat split; lia.
      * repeat split; lia.
    + destruct (process_code_comments o st l E) as [-> ->].
      rewrite (process_code_output o st l E), !filter_app. cbn [filter andb].
      rewrite (emitted_not_comment o (current_n st) l E).
      assert (filter is_comment (if is_toolchange l then call_before o else []) = [])
        as -> by (destruct (is_toolchange l); [apply call_before_no_comment|reflexivity]).
      rewrite !app_nil_r. repeat split; lia.
Qed.

(** The toolchange counter counts the lines that are not comments and match
    the toolchange pattern; no comment matches it. *)
Lemma run_lines_toolchanges (o : Options) (lines : list str) (st : Loop) :
  toolchanges (stats (run_lines o st lines))
  = toolchanges (stats st) + count is_toolchange lines.
Proof.
  revert st; induction lines as [|l rest IH]; intro st.
  - cbn. lia.
  - cbn [run_lines fold_left]. unfold run_lines in IH. rewrite IH.
    unfold count. cbn [filter].
    destruct (is_comment l) eqn:E.
    + rewrite (comment_not_toolchange l E), (process_comment o st l E).
      destruct (keep_all_comments o || is_important_comment l); cbn; lia.
    + rewrite (process_code_toolchanges o st l E).
      destruct (is_toolchange l); cbn [length]; lia.
Qed.

(** The counter of sequence numbers moves by one step for every line that
    takes a number, and the renumbering counter counts those lines. *)
Lemma process_line_numbering (o : Options) (st : Loop) (line : str) :
  current_n (process_line o st line)
  = (current_n st + (if takes_number o line then step_n o else 0))%Z
  /\ lines_renumbered (stats (process_line o st line))
     = lines_renumbered (stats st) + (if takes_number o line then 1 else 0).
Proof.
  unfold takes_number. destruct (is_comment line) eqn:E.
  - rewrite (process_comment o st line E).
    destruct (keep_all_comments o || is_important_comment line); cbn;
      split; lia.
  - rewrite (process_code o st line E).
    unfold renumber_line, count_toolchange, insert_call.
    destruct (insert_toolchange_call o), (is_toolchange line), (renumber o),
      (startswith (s "N") (lstrip line)); cbn; split; lia.
Qed.

Lemma run_lines_numbering (o : Options) (lines : list str) (st : Loop) :
  current_n (run_lines o st lines)
  = (current_n st + step_n o * Z.of_nat (count (takes_number o) lines))%Z
  /\ lines_renumbered (stats (run_lines o st lines))
     = lines_renumbered (stats st) + count (takes_number o) lines.
Proof.
  revert st; induction lines as [|l rest IH]; intro st.
  - cbn. split; lia.
  - cbn [run_lines fold_left]. unfold run_lines in IH.
    destruct (IH (process_line o st l)) as [-> ->].
    destruct (process_line_numbering o st l) as [-> ->].
    unfold count. cbn [filter].
    destruct (takes_number o l); cbn [length]; split; lia.
Qed.

(** A sequenced instruction, [N] and digits after optional white space, is
    written with the fresh number in place of its own: the white space before
    it, its number and the blanks after the number go. *)
Lemma numbered_line_sequenced (n : Z) (ws ds bs rest : str) :
  forallb is_space ws = true ->
  ds <> [] -> forallb is_digit ds = true -> forallb is_blank bs = true ->
  match bs ++ rest with a :: _ => is_digit a = false | [] => True end ->
  match rest with a :: _ => is_blank a = false | [] => True end ->
  numbered_line n (ws ++ s "N" ++ ds ++ bs ++ rest)
  = s "N" ++ str_of_Z n ++ s " " ++ rest.
Proof.
  intros Hw Hn Hd Hb Hbr Hr. unfold numbered_line, lstrip.
  rewrite (RegexFacts.dropWhile_all is_space _ _ Hw).
  change (dropWhile is_space (s "N" ++ ds ++ bs ++ rest))
    with (s "N" ++ ds ++ bs ++ rest).
  now rewrite RegexFacts.sequence_number_removed.
Qed.

End NormalizeFacts.

(** ** The validator *)

Module ValidateFacts.
Import Py Re Seam PyFacts.




Lemma rev_last (out : list str) :
  out <> [] -> rev out = last out [] :: rev (removelast out).
Proof.
  intro H. rewrite (app_removelast_last [] H) at 1.
  rewrite rev_app_distr. reflexivity.
Qed.



Lemma validate_output_empty (t : ScriptStats) : validate_output [] t = None.
Proof. reflexivity. Qed.

End ValidateFacts.

(** ** The assembled output *)

Module MainFacts.
Import Py Re Seam Stages PyFacts ValidateFacts.








End MainFacts.

(** ** More about the normalizer *)

Module NormalizeMore.
Import Py Re Seam Lines Shapes PyFacts LineFacts NormalizeFacts.

Lemma process_line_output (o : Options) (st : Loop) (line : str) :
  output_lines (process_line o st line)
  = output_lines st ++ written_for o (current_n st) line.
Proof.
  unfold written_for. destruct (is_comment line) eqn:E.
  - rewrite (process_comment o st line E).
    destruct (keep_all_comments o || is_important_comment line); cbn;
      [reflexivity | now rewrite app_nil_r].
  - apply (process_code_output o st line E).
Qed.

Lemma process_line_calls (o : Options) (st : Loop) (line : str) :
  toolchange_calls (stats (process_line o st line))
  = toolchange_calls (stats st)
    + (if insert_toolchange_call o && is_toolchange line then 1 else 0).
Proof.
  destruct (is_comment line) eqn:E.
  - rewrite (comment_not_toolchange line E), andb_false_r.
    rewrite (process_comment o st line E).
    destruct (keep_all_comments o || is_important_comment line); cbn; lia.
  - apply (process_code_calls o st line E).
Qed.

Lemma process_line_errors (o : Options) (st : Loop) (line : str) :
  validation_errors (stats (process_line o st line)) = validation_errors (stats st).
Proof.
  unfold process_line, renumber_line, count_toolchange, insert_call.
  destruct (is_comment line), (keep_all_comments o || is_important_comment line),
    (insert_toolchange_call o), (is_toolchange line),
    (renumber o && startswith (s "N") (lstrip line)); reflexivity.
Qed.

Lemma run_lines_calls (o : Options) (lines : list str) (st : Loop) :
  toolchange_calls (stats (run_lines o st lines))
  = toolchange_calls (stats st)
    + (if insert_toolchange_call o then count is_toolchange lines else 0).
Proof.
  revert st; induction lines as [|l rest IH]; intro st.
  - cbn. destruct (insert_toolchange_call o); lia.
  - cbn [run_lines fold_left]. unfold run_lines in IH. rewrite IH.
    rewrite process_line_calls. unfold count. cbn [filter].
    destruct (insert_toolchange_call o), (is_toolchange l); cbn [andb length]; lia.
Qed.

Lemma run_lines_errors (o : Options) (lines : list str) (st : Loop) :
  validation_errors (stats (run_lines o st lines)) = validation_errors (stats st).
Proof.
  revert st; induction lines as [|l rest IH]; intro st; [reflexivity|].
  cbn [run_lines fold_left]. unfold run_lines in IH.
  now rewrite IH, process_line_errors.
Qed.

(** Every input line is written or is a removed comment, and every output
    line is an input line or an inserted call. *)
Lemma run_lines_balance (o : Options) (lines : list str) (st : Loop) :
  let st' := run_lines o st lines in
  length (output_lines st') + comments_removed (stats st')
    + toolchange_calls (stats st)
  = length (output_lines st) + comments_removed (stats st)
    + toolchange_calls (stats st') + length lines.
Proof.
  revert st; induction lines as [|l rest IH]; intro st.
  - cbn. lia.
  - cbn [run_lines fold_left length]. specialize (IH (process_line o st l)).
    cbv zeta in *. unfold run_lines in IH.
    enough (length (output_lines (process_line o st l))
            + comments_removed (stats (process_line o st l))
            + toolchange_calls (stats st)
            = length (output_lines st) + comments_removed (stats st)
              + toolchange_calls (stats (process_line o st l)) + 1) by lia.
    rewrite process_line_output, process_line_calls, length_app.
    unfold written_for. destruct (is_comment l) eqn:E.
    + rewrite (comment_not_toolchange l E), andb_false_r.
      rewrite (process_comment o st l E).
      destruct (keep_all_comments o || is_important_comment l); cbn; lia.
    + destruct (process_code_comments o st l E) as [_ ->].
      rewrite length_app. unfold call_before.
      destruct (insert_toolchange_call o), (is_toolchange l); cbn; lia.
Qed.

(** Without renumbering and without call insertion the loop is a filter. *)
Lemma run_lines_plain (o : Options) (lines : list str) (st : Loop) :
  renumber o = false -> insert_toolchange_call o = false ->
  output_lines (run_lines o st lines)
  = output_lines st ++ filter (fun l => negb (dropped_comment o l)) lines.
Proof.
  intros Hr Hi. revert st; induction lines as [|l rest IH]; intro st.
  - cbn. now rewrite app_nil_r.
  - cbn [run_lines fold_left filter]. unfold run_lines in IH. rewrite IH.
    rewrite process_line_output, <- app_assoc. f_equal.
    unfold written_for, dropped_comment, emitted, call_before.
    rewrite Hr, Hi. destruct (is_comment l); cbn [andb negb].
    + destruct (keep_all_comments o || is_important_comment l); reflexivity.
    + destruct (is_toolchange l); reflexivity.
Qed.

(** Lower-casing makes no parenthesis. *)
Lemma lower_char_paren (c : ascii) : lower_char c = "("%char -> c = "("%char.
Proof.
  destruct c as [[|] [|] [|] [|] [|] [|] [|] [|]]; vm_compute; intro H;
    first [reflexivity | discriminate H].
Qed.

Lemma important_starts_paren (line : str) :
  is_important_comment line = true ->
  startswith (s "(") (lower (strip line)) = true.
Proof.
  unfold is_important_comment. intro H. apply existsb_exists in H as (p & Hin & Hp).
  destruct (lower (strip line)) as [|c t]; cbn [important_prefixes In] in Hin;
    repeat (destruct Hin as [<-|Hin]; [cbn in Hp |- *; try discriminate Hp;
      apply andb_true_iff in Hp as [Hp _]; now rewrite Hp|]);
    contradiction.
Qed.

Lemma important_is_comment (line : str) :
  is_important_comment line = true -> is_comment line = true.
Proof.
  intro H. apply important_starts_paren in H. unfold is_comment.
  destruct (strip line) as [|c t]; [discriminate H|].
  cbn in H. rewrite andb_true_r in H.
  change (Ascii.eqb "(" (lower_char c) = true) in H.
  apply Ascii.eqb_eq in H. symmetry in H. apply lower_char_paren in H. now subst c.
Qed.

(** The decimal form of a number that is not negative: digits, at least
    one. *)
Lemma uint_digits (d : Decimal.uint) :
  forallb is_digit (list_ascii_of_string (NilEmpty.string_of_uint d)) = true.
Proof. induction d; cbn; auto. Qed.

Lemma str_of_Z_digits (n : Z) :
  (0 <= n)%Z -> str_of_Z n <> [] /\ forallb is_digit (str_of_Z n) = true.
Proof.
  intro H. unfold str_of_Z. destruct n as [|p|p]; [split; [discriminate | reflexivity]| |lia].
  cbn [Z.to_int NilZero.string_of_int]. unfold NilZero.string_of_uint.
  destruct (Pos.to_uint p) eqn:E;
    (split; [discriminate | rewrite <- ?E; try apply uint_digits; reflexivity]).
Qed.

Lemma sub_no_blank_head (y : str) :
  startswith (s "N") y = true ->
  no_head is_blank (sub_empty Patterns.sequence_number y) = true.
Proof.
  intro H. destruct (startswith_one "N" _ y eq_refl H) as [t ->].
  unfold sub_empty, Patterns.sequence_number. cbn [run].
  change (startswith (s "N") ("N"%char :: t)) with true.
  change (skipn (length (s "N")) ("N"%char :: t)) with t. cbv iota.
  destruct t as [|a t]; [reflexivity|].
  destruct (is_digit a) eqn:Ea; [|reflexivity].
  destruct (dropWhile is_blank (dropWhile is_digit (a :: t))) as [|b u] eqn:Ed;
    [reflexivity|].
  cbn. now rewrite (dropWhile_head _ _ _ _ Ed).
Qed.

(** A line with a number that is not negative before it keeps its shape when
    it is numbered again with the same number. *)
Lemma numbered_line_again (n : Z) (line : str) :
  (0 <= n)%Z -> startswith (s "N") (lstrip line) = true ->
  numbered_line n (numbered_line n line) = numbered_line n line.
Proof.
  intros Hn HN. destruct (str_of_Z_digits n Hn) as [Hne Hd].
  pose proof (sub_no_blank_head (lstrip line) HN) as Hb.
  unfold numbered_line at 1 3.
  set (body := sub_empty Patterns.sequence_number (lstrip line)) in *.
  change (lstrip (numbered_line n line)) with (numbered_line n line).
  unfold numbered_line. fold body. do 3 f_equal.
  change (s " " ++ body) with ([SP] ++ body).
  apply RegexFacts.sequence_number_removed; try assumption; try reflexivity.
  destruct body as [|a b]; [exact I|]. cbn in Hb. now apply negb_true_iff in Hb.
Qed.

(** What was written for a line is written again, as it is, when it is
    processed with the counter where it stood, and the counter moves as it
    did. *)
Lemma second_pass_line (o : Options) (st st2 : Loop) (line : str) :
  insert_toolchange_call o = false ->
  (0 <= current_n st)%Z -> current_n st2 = current_n st ->
  let more := written_for o (current_n st) line in
  output_lines (run_lines o st2 more) = output_lines st2 ++ more
  /\ current_n (run_lines o st2 more) = current_n (process_line o st line).
Proof.
  intros Hi Hn H2. cbv zeta.
  destruct (process_line_numbering o st line) as [Hc _]. rewrite Hc. clear Hc.
  unfold written_for, takes_number. destruct (is_comment line) eqn:E.
  - cbn [negb andb].
    destruct (keep_all_comments o || is_important_comment line) eqn:Ek.
    + cbn [run_lines fold_left]. rewrite process_line_output.
      destruct (process_line_numbering o st2 line) as [-> _].
      unfold written_for, takes_number. rewrite E, Ek. cbn [negb andb]. split;
        [reflexivity | lia].
    + cbn. rewrite app_nil_r. split; [reflexivity | lia].
  - unfold call_before. rewrite Hi.
    replace ((if is_toolchange line then [] else []) ++ [emitted o (current_n st) line])
      with [emitted o (current_n st) line] by (now destruct (is_toolchange line)).
    cbn [run_lines fold_left negb andb]. rewrite process_line_output.
    destruct (process_line_numbering o st2 (emitted o (current_n st) line)) as [-> _].
    unfold written_for, takes_number.
    rewrite (emitted_not_comment o (current_n st) line E).
    unfold call_before. rewrite Hi, H2. cbn [negb andb].
    replace ((if is_toolchange (emitted o (current_n st) line) then [] else []) : list str)
      with (@nil str) by (now destruct (is_toolchange _)).
    cbn [app]. unfold emitted.
    destruct (renumber o) eqn:Er; cbn [andb]; [|now split].
    destruct (startswith (s "N") (lstrip line)) eqn:EN.
    + change (lstrip (numbered_line (current_n st) line))
        with (numbered_line (current_n st) line).
      change (startswith (s "N") (numbered_line (current_n st) line)) with true.
      cbv iota. now rewrite (numbered_line_again _ _ Hn EN).
    + rewrite EN. now split.
Qed.

Lemma second_pass (o : Options) (lines : list str) :
  insert_toolchange_call o = false -> (0 <= step_n o)%Z ->
  forall st st2 : Loop,
    (0 <= current_n st)%Z -> current_n st2 = current_n st ->
    exists more,
      output_lines (run_lines o st lines) = output_lines st ++ more
      /\ output_lines (run_lines o st2 more) = output_lines st2 ++ more
      /\ current_n (run_lines o st2 more) = current_n (run_lines o st lines).
Proof.
  intros Hi Hs. induction lines as [|l rest IH]; intros st st2 Hn H2.
  - exists []. cbn. rewrite !app_nil_r. now repeat split.
  - destruct (second_pass_line o st st2 l Hi Hn H2) as [Ho Hc].
    assert (0 <= current_n (process_line o st l))%Z as Hn'.
    { destruct (process_line_numbering o st l) as [-> _].
      destruct (takes_number o l); lia. }
    destruct (IH (process_line o st l)
                 (run_lines o st2 (written_for o (current_n st) l)) Hn' Hc)
      as (more & H1 & H3 & H4).
    exists (written_for o (current_n st) l ++ more).
    cbn [run_lines fold_left]. unfold run_lines in H1. rewrite H1.
    rewrite process_line_output, <- app_assoc. split; [reflexivity|].
    rewrite run_lines_app, H3, Ho, <- app_assoc. split; [reflexivity | exact H4].
Qed.

(** A stream of sequenced instructions is numbered from where the counter
    stands, one step apart. *)
Lemma line_of_lstrip (i : Sequenced) :
  forallb is_space (indent i) = true ->
  lstrip (line_of i) = s "N" ++ digits i ++ gap i ++ code_part i.
Proof.
  intro H. unfold line_of, lstrip. now rewrite (RegexFacts.dropWhile_all _ _ _ H).
Qed.

Lemma no_head_prop (c : ascii -> bool) (x : str) :
  no_head c x = true -> match x with a :: _ => c a = false | [] => True end.
Proof. destruct x; cbn; [trivial|]. apply negb_true_iff. Qed.

Lemma sequenced_written (o : Options) (n : Z) (i : Sequenced) :
  renumber o = true -> insert_toolchange_call o = false ->
  sequenced_ok i = true ->
  written_for o n (line_of i) = [renumbered n i].
Proof.
  intros Hr Hi Hok. unfold sequenced_ok in Hok.
  repeat (apply andb_true_iff in Hok as [Hok ?]).
  pose proof (line_of_lstrip i Hok) as Hl.
  unfold written_for. rewrite is_comment_lstrip, Hl.
  change (startswith (s "(") (s "N" ++ digits i ++ gap i ++ code_part i)) with false.
  cbv iota. unfold call_before. rewrite Hi.
  replace ((if is_toolchange (line_of i) then [] else []) : list str)
    with (@nil str) by (now destruct (is_toolchange _)).
  cbn [app]. unfold emitted. rewrite Hr, Hl.
  change (startswith (s "N") (s "N" ++ digits i ++ gap i ++ code_part i)) with true.
  cbn [andb]. unfold renumbered, line_of. f_equal.
  apply numbered_line_sequenced; try assumption.
  - intros E. rewrite E in *. discriminate.
  - now apply no_head_prop.
  - now apply no_head_prop.
Qed.

Lemma sequenced_takes_number (o : Options) (i : Sequenced) :
  renumber o = true -> sequenced_ok i = true -> takes_number o (line_of i) = true.
Proof.
  intros Hr Hok. unfold sequenced_ok in Hok.
  repeat (apply andb_true_iff in Hok as [Hok ?]).
  pose proof (line_of_lstrip i Hok) as Hl.
  unfold takes_number. now rewrite is_comment_lstrip, Hl, Hr.
Qed.

Lemma run_sequenced (o : Options) (items : list Sequenced) :
  renumber o = true -> insert_toolchange_call o = false ->
  forallb sequenced_ok items = true ->
  forall (st : Loop) (base : Z) (k0 : nat),
    current_n st = (base + step_n o * Z.of_nat k0)%Z ->
    output_lines (run_lines o st (map line_of items))
    = output_lines st
      ++ map (fun ki => renumbered (base + step_n o * Z.of_nat (fst ki)) (snd ki))
             (combine (seq k0 (length items)) items).
Proof.
  intros Hr Hi. induction items as [|i items IH]; intros Hok st base k0 Hc.
  - cbn. now rewrite app_nil_r.
  - cbn in Hok. apply andb_true_iff in Hok as [Hi0 Hok].
    cbn [map run_lines fold_left length seq combine fst snd].
    unfold run_lines in IH.
    rewrite (IH Hok (process_line o st (line_of i)) base (S k0)).
    + rewrite process_line_output, (sequenced_written o _ i Hr Hi Hi0), Hc.
      now rewrite <- app_assoc.
    + destruct (process_line_numbering o st (line_of i)) as [-> _].
      rewrite (sequenced_takes_number o i Hr Hi0), Hc. lia.
Qed.

Lemma count_comments (o : Options) (lines : list str) :
  count (kept_comment o) lines + count (dropped_comment o) lines
  = count is_comment lines.
Proof.
  unfold count, kept_comment, dropped_comment.
  induction lines as [|l rest IH]; [reflexivity|]. cbn [filter].
  destruct (is_comment l), (keep_all_comments o || is_important_comment l);
    cbn [andb negb length]; lia.
Qed.

End NormalizeMore.

(** ** More about cutting and the extractor *)

Module CutFacts.
Section CutFacts.
Context {A : Type} (p q : A -> bool).

Lemma through_idem (l : list A) : Cut.through p (Cut.through p l) = Cut.through p l.
Proof.
  induction l as [|x t IH]; [reflexivity|]. cbn [Cut.through].
  destruct (p x) eqn:E; cbn [Cut.through]; rewrite E; [reflexivity|].
  now rewrite IH.
Qed.

(** The cut is the whole list, or it ends in the first element that
    passes. *)
Lemma through_shape (l : list A) :
  exists rest,
    l = Cut.through p l ++ rest
    /\ forallb (fun x => negb (p x)) (removelast (Cut.through p l)) = true
    /\ (rest = [] \/ exists h x, Cut.through p l = h ++ [x] /\ p x = true).
Proof.
  induction l as [|x t (rest & Hl & Hn & Hr)]; cbn [Cut.through].
  - exists []. repeat split. now left.
  - destruct (p x) eqn:E.
    + exists t. repeat split. right. now exists [], x.
    + exists rest. split; [cbn; now f_equal|]. split.
      * destruct (Cut.through p t) eqn:Et; [reflexivity|].
        cbn [removelast forallb] in *. now rewrite E, Hn.
      * destruct Hr as [->|(h & y & Hh & Hy)]; [now left|].
        right. exists (x :: h), y. now rewrite Hh.
Qed.

Lemma from_shape (l : list A) :
  exists pre,
    l = pre ++ Cut.from p l
    /\ forallb (fun x => negb (p x)) pre = true
    /\ match Cut.from p l with [] => True | x :: _ => p x = true end.
Proof.
  induction l as [|x t (pre & Hl & Hn & Hh)]; cbn [Cut.from].
  - now exists [].
  - destruct (p x) eqn:E.
    + exists []. repeat split. exact E.
    + exists (x :: pre). split; [cbn; now f_equal|]. split; [|exact Hh].
      cbn. now rewrite E, Hn.
Qed.

Lemma before_shape (l : list A) :
  exists post,
    l = Cut.before q l ++ post
    /\ forallb (fun x => negb (q x)) (Cut.before q l) = true
    /\ match post with [] => True | x :: _ => q x = true end.
Proof.
  induction l as [|x t (post & Hl & Hn & Hh)]; cbn [Cut.before].
  - now exists [].
  - destruct (q x) eqn:E.
    + exists (x :: t). repeat split. exact E.
    + exists post. split; [cbn; now f_equal|]. split; [|exact Hh].
      cbn. now rewrite E, Hn.
Qed.

Lemma before_head (l : list A) :
  match Cut.before q l with
  | [] => True
  | x :: _ => exists t, l = x :: t
  end.
Proof.
  destruct l as [|x t]; cbn; [exact I|]. destruct (q x); [exact I|]. now exists t.
Qed.

Lemma before_app (a b : list A) :
  forallb (fun x => negb (q x)) a = true ->
  Cut.before q (a ++ b) = a ++ Cut.before q b.
Proof.
  induction a as [|x a IH]; cbn; [reflexivity|].
  destruct (q x); cbn; [discriminate|]. intro H. now rewrite IH.
Qed.

Lemma before_all (l : list A) :
  forallb (fun x => negb (q x)) l = true -> Cut.before q l = l.
Proof.
  intro H. rewrite <- (app_nil_r l) at 1. rewrite (before_app l [] H).
  cbn. apply app_nil_r.
Qed.

(** The segment between the first start and the first end after it is its
    own segment. *)
Lemma segment_idem (l : list A) :
  Cut.before q (Cut.from p (Cut.before q (Cut.from p l)))
  = Cut.before q (Cut.from p l).
Proof.
  destruct (from_shape l) as (pre & _ & _ & Hh).
  destruct (before_shape (Cut.from p l)) as (post & _ & Hn & _).
  pose proof (before_head (Cut.from p l)) as Hb.
  destruct (Cut.before q (Cut.from p l)) as [|x seg] eqn:E; [reflexivity|].
  destruct Hb as [t Ht]. rewrite Ht in Hh.
  cbn [Cut.from]. rewrite Hh. now apply before_all.
Qed.

(** When [x] starts a segment and nothing from the first start up to [x]
    ends one, the segment starts at [x] or before it and runs through [x]. *)
Lemma segment_reaches (h rest : list A) (x : A) :
  p x = true ->
  forallb (fun y => negb (q y)) (Cut.from p (h ++ [x])) = true ->
  exists h1 h2 more,
    h = h1 ++ h2
    /\ Cut.from p (h ++ [x]) = h2 ++ [x]
    /\ Cut.before q (Cut.from p (h ++ x :: rest)) = h2 ++ [x] ++ more.
Proof.
  intros Hx. induction h as [|y h IH]; intro Hq.
  - exists [], [], (Cut.before q rest). split; [reflexivity|].
    cbn in *. rewrite Hx in *. cbn in *. rewrite andb_true_r in Hq.
    apply negb_true_iff in Hq. now rewrite Hq.
  - cbn [app Cut.from] in *. destruct (p y) eqn:Ey.
    + exists [], (y :: h), (Cut.before q rest). split; [reflexivity|].
      split; [reflexivity|].
      replace (h ++ x :: rest) with ((h ++ [x]) ++ rest)
        by (rewrite <- app_assoc; reflexivity).
      change (y :: (h ++ [x]) ++ rest) with ((y :: h ++ [x]) ++ rest).
      rewrite (before_app _ rest Hq). cbn [app]. now rewrite <- app_assoc.
    + destruct (IH Hq) as (h1 & h2 & more & Hh & Hf & Hb).
      exists (y :: h1), h2, more. split; [cbn; now f_equal | now split].
Qed.

End CutFacts.
End CutFacts.

(** ** The file names of directory mode *)

Module FilesFacts.
Import Py Files PyFacts.

Lemma take_drop (p : ascii -> bool) (x : str) :
  x = takeWhile p x ++ dropWhile p x.
Proof.
  induction x as [|a x IH]; [reflexivity|]. cbn.
  destruct (p a); [cbn; now f_equal | reflexivity].
Qed.

Lemma takeWhile_all (p : ascii -> bool) (x : str) : forallb p (takeWhile p x) = true.
Proof.
  induction x as [|a x IH]; [reflexivity|]. cbn.
  destruct (p a) eqn:E; [cbn; now rewrite E | reflexivity].
Qed.

Lemma takeWhile_run (p : ascii -> bool) (w r : str) :
  forallb p w = true -> Shapes.no_head p r = true -> takeWhile p (w ++ r) = w.
Proof.
  intros Hw Hr. induction w as [|a w IH]; cbn.
  - destruct r as [|b r]; [reflexivity|]. cbn in Hr |- *.
    apply negb_true_iff in Hr. now rewrite Hr.
  - cbn in Hw. apply andb_true_iff in Hw as [Ha Hw]. rewrite Ha. now rewrite IH.
Qed.

Lemma dropWhile_exact (p : ascii -> bool) (w r : str) :
  forallb p w = true -> Shapes.no_head p r = true -> dropWhile p (w ++ r) = r.
Proof.
  intros Hw Hr. rewrite (RegexFacts.dropWhile_all p w r Hw).
  destruct r as [|b r]; [reflexivity|]. cbn in Hr |- *.
  apply negb_true_iff in Hr. now rewrite Hr.
Qed.

(** The extension is four or five characters and starts with a dot. *)
Lemma ngc_length (x : str) : ngc_at_end x = true -> 4 <= length x <= 5.
Proof.
  destruct x as [|d [|n [|g [|c [|e [|f r]]]]]]; cbn; try discriminate; try lia.
Qed.

Lemma ngc_no_digit (x : str) : ngc_at_end x = true -> Shapes.no_head is_digit x = true.
Proof.
  destruct x as [|d [|n [|g [|c r]]]]; cbn; try discriminate.
  intro H. repeat (apply andb_true_iff in H as [H _]).
  apply Ascii.eqb_eq in H. now subst d.
Qed.

Lemma int_of_digits_from (x : str) (acc : Z) :
  forallb is_digit x = true -> (0 <= acc)%Z ->
  (0 <= fold_left (fun a c => 10 * a + (Z.of_nat (code c) - 48)) x acc)%Z.
Proof.
  revert acc; induction x as [|c x IH]; intros acc Hx Ha; [exact Ha|].
  cbn [forallb fold_left] in Hx |- *.
  apply andb_true_iff in Hx as [Hc Hx]. apply IH; [exact Hx|].
  unfold is_digit in Hc. apply andb_true_iff in Hc as [Hc _].
  apply Nat.leb_le in Hc. lia.
Qed.

Lemma int_of_digits_nonneg (x : str) :
  forallb is_digit x = true -> (0 <= int_of_digits x)%Z.
Proof. intro H. apply int_of_digits_from; [exact H | lia]. Qed.

(** What the search returns is a run of digits right before the
    extension. *)
Lemma search_sound (x g : str) :
  search_number x = Some g ->
  exists base ext,
    x = base ++ g ++ ext /\ g <> [] /\ forallb is_digit g = true
    /\ ngc_at_end ext = true.
Proof.
  revert g; induction x as [|a x IH]; intro g; [discriminate|].
  cbn [search_number].
  destruct (is_digit a && ngc_at_end (dropWhile is_digit (a :: x))) eqn:E.
  - intro H. injection H as <-. apply andb_true_iff in E as [Ea En].
    exists [], (dropWhile is_digit (a :: x)). split; [|split; [|split]].
    + exact (take_drop is_digit (a :: x)).
    + cbn [takeWhile]. rewrite Ea. discriminate.
    + exact (takeWhile_all is_digit (a :: x)).
    + exact En.
  - intro H. destruct (IH g H) as (base & ext & -> & Hg & Hd & He).
    now exists (a :: base), ext.
Qed.

(** A name with digits right before the extension has a match. *)
Lemma search_complete (base ds ext : str) :
  ds <> [] -> forallb is_digit ds = true -> ngc_at_end ext = true ->
  exists g, search_number (base ++ ds ++ ext) = Some g
            /\ forallb is_digit g = true.
Proof.
  intros Hn Hd He. induction base as [|b base IH].
  - destruct ds as [|a ds]; [contradiction|]. cbn [app search_number].
    pose proof Hd as Hd'. cbn in Hd'. apply andb_true_iff in Hd' as [Ha _].
    change (a :: ds ++ ext) with ((a :: ds) ++ ext).
    rewrite (dropWhile_exact is_digit _ ext Hd (ngc_no_digit ext He)), Ha, He.
    eexists. split; [reflexivity | apply takeWhile_all].
  - cbn [app search_number].
    destruct (is_digit b && ngc_at_end (dropWhile is_digit (b :: base ++ ds ++ ext))).
    + eexists. split; [reflexivity | apply takeWhile_all].
    + exact IH.
Qed.

(** A run of digits that starts inside a base whose last character is no
    digit ends inside it. *)
Lemma dropWhile_inside (base r : str) (d : ascii) :
  base <> [] -> is_digit (last base d) = false ->
  exists c u, dropWhile is_digit (base ++ r) = c :: u ++ r.
Proof.
  induction base as [|b [|b' t] IH]; intros Hn Hl; [contradiction| |].
  - cbn in Hl |- *. rewrite Hl. now exists b, [].
  - change ((b :: b' :: t) ++ r) with (b :: (b' :: t) ++ r).
    cbn [dropWhile]. destruct (is_digit b).
    + apply IH; [discriminate | exact Hl].
    + now exists b, (b' :: t).
Qed.

Lemma search_exact (base ds ext : str) :
  is_digit (last base "x"%char) = false ->
  ds <> [] -> forallb is_digit ds = true -> ngc_at_end ext = true ->
  search_number (base ++ ds ++ ext) = Some ds.
Proof.
  intros Hl Hn Hd He. induction base as [|b base IH].
  - destruct ds as [|a ds]; [contradiction|]. cbn [app search_number].
    pose proof Hd as Hd'. cbn in Hd'. apply andb_true_iff in Hd' as [Ha _].
    change (a :: ds ++ ext) with ((a :: ds) ++ ext).
    rewrite (dropWhile_exact is_digit _ ext Hd (ngc_no_digit ext He)), Ha, He.
    cbn [andb]. now rewrite (takeWhile_run is_digit _ ext Hd (ngc_no_digit ext He)).
  - cbn [app search_number].
    assert (ngc_at_end (dropWhile is_digit (b :: base ++ ds ++ ext)) = false) as ->.
    { destruct (dropWhile_inside (b :: base) (ds ++ ext) "x"%char) as (c & u & Hu);
        [discriminate | exact Hl |].
      change ((b :: base) ++ ds ++ ext) with (b :: base ++ ds ++ ext) in Hu.
      rewrite Hu.
      destruct (ngc_at_end (c :: u ++ ds ++ ext)) eqn:E; [|reflexivity].
      apply ngc_length in E. apply ngc_length in He.
      cbn [length] in E. rewrite !length_app in E.
      destruct ds; [contradiction|]. cbn [length] in E. lia. }
    rewrite andb_false_r. apply IH.
    destruct base as [|b' t]; [reflexivity | exact Hl].
Qed.

(** *** Sorting by key *)

Section Sorting.
Variable key : str -> Z.

Lemma insert_perm (x : str) (l : list str) :
  Permutation (insert_by key x l) (x :: l).
Proof.
  induction l as [|y t IH]; cbn; [reflexivity|].
  destruct (key x <=? key y)%Z; [reflexivity|].
  rewrite IH. apply perm_swap.
Qed.

Lemma insert_sorted (x : str) (l : list str) :
  StronglySorted (le_key key) l -> StronglySorted (le_key key) (insert_by key x l).
Proof.
  induction 1 as [|y t Hs IH Hf]; cbn.
  - constructor; constructor.
  - destruct (Z.leb_spec (key x) (key y)) as [Hle|Hgt].
    + constructor; [now constructor|]. constructor; [exact Hle|].
      eapply Forall_impl; [|exact Hf]. intros z Hz. unfold le_key in *. lia.
    + constructor; [exact IH|].
      rewrite Forall_forall in *. intros z Hz.
      apply (Permutation_in _ (insert_perm x t)) in Hz as [<-|Hz];
        [unfold le_key; lia | now apply Hf].
Qed.

Lemma insert_stable (k : Z) (x : str) (l : list str) :
  filter (fun n => (key n =? k)%Z) (insert_by key x l)
  = filter (fun n => (key n =? k)%Z) (x :: l).
Proof.
  induction l as [|y t IH]; [reflexivity|]. cbn [insert_by].
  destruct (Z.leb_spec (key x) (key y)) as [Hle|Hgt]; [reflexivity|].
  cbn [filter] in *. rewrite IH.
  destruct (Z.eqb_spec (key x) k), (Z.eqb_spec (key y) k); try reflexivity. lia.
Qed.

Lemma sorted_by_perm (l : list str) : Permutation (sorted_by key l) l.
Proof.
  induction l as [|x l IH]; cbn; [reflexivity|].
  rewrite insert_perm. now constructor.
Qed.

Lemma sorted_by_sorted (l : list str) : StronglySorted (le_key key) (sorted_by key l).
Proof.
  induction l as [|x l IH]; cbn; [constructor | now apply insert_sorted].
Qed.

Lemma sorted_by_stable (k : Z) (l : list str) :
  filter (fun n => (key n =? k)%Z) (sorted_by key l)
  = filter (fun n => (key n =? k)%Z) l.
Proof.
  induction l as [|x l IH]; [reflexivity|]. cbn [sorted_by fold_right].
  rewrite insert_stable. cbn [filter]. unfold sorted_by in IH. now rewrite IH.
Qed.

Lemma filter_sorted (f : str -> bool) (l : list str) :
  StronglySorted (le_key key) l -> StronglySorted (le_key key) (filter f l).
Proof.
  induction 1 as [|y t Hs IH Hf]; cbn; [constructor|].
  destruct (f y); [|exact IH]. constructor; [exact IH|].
  rewrite Forall_forall in *. intros z Hz. apply filter_In in Hz as [Hz _]. auto.
Qed.

Lemma filter_perm (f : str -> bool) (l l' : list str) :
  Permutation l l' -> Permutation (filter f l) (filter f l').
Proof.
  induction 1 as [|x l l' _ IH|x y l|l l' l'' _ IH1 _ IH2]; cbn.
  - constructor.
  - destruct (f x); [now constructor | exact IH].
  - destruct (f x), (f y); try reflexivity. apply perm_swap.
  - now transitivity (filter f l').
Qed.

Lemma filter_filter (f g : str -> bool) (l : list str) :
  filter f (filter g l) = filter (fun n => g n && f n) l.
Proof.
  induction l as [|x l IH]; [reflexivity|]. cbn.
  destruct (g x); cbn; [destruct (f x)|]; now rewrite IH.
Qed.

End Sorting.

End FilesFacts.

(** ** More about the validator *)

Module ValidateMore.
Import Py Re Seam PyFacts ValidateFacts.

(** No finding is the same as: last line [%], one [M30] line, the counted
    toolchanges. *)
Lemma validate_output_clean (out : list str) (t : ScriptStats) :
  out <> [] ->
  (validate_output out t = Some ([], set_errors [] t)
   <-> strip (last out []) = s "%"
       /\ count (contains (s "M30")) out = 1
       /\ count is_toolchange out = toolchanges t).
Proof.
  intro H. unfold validate_output. rewrite (rev_last out H).
  set (m := count (contains (s "M30")) out).
  set (k := count is_toolchange out).
  pose proof (str_eqb_eq (strip (last out [])) (s "%")) as Hp.
  destruct (str_eqb (strip (last out [])) (s "%"));
    destruct (Nat.eqb_spec m 0) as [E2|E2];
    destruct (Nat.ltb_spec 1 m) as [E3|E3];
    destruct (Nat.eqb_spec k (toolchanges t)) as [E4|E4];
    cbn [negb app]; split;
    try (intro Hs; discriminate Hs);
    try (intros (H1 & H2 & H3); try lia; try contradiction;
         apply Hp in H1; discriminate H1).
  - intros _. split; [now apply Hp|]. split; [lia | exact E4].
  - reflexivity.
Qed.

End ValidateMore.

(** ** Reading the output back *)

Module ReadBack.
Import Py Re Seam Lines Shapes Stages PyFacts LineFacts NormalizeFacts NormalizeMore.


Lemma complete_not_nil (x : str) : complete_line x = true -> x <> [].
Proof. intros H ->. discriminate H. Qed.




(** *** Lines that read back as they were written *)







(** *** The lines of a run are complete *)





Section Kept.
Context {A : Type} (P p : A -> bool).




End Kept.





End ReadBack.

(** ** The lines of a run *)

Module RunFacts.
Import Py Re Seam Lines Shapes Stages PyFacts LineFacts NormalizeFacts NormalizeMore.
Import ReadBack.











(** *** Toolchange lines through the normalizer *)

Lemma call_line_not_toolchange (name : str) : is_toolchange (call_line name) = false.
Proof. reflexivity. Qed.






(** *** The program-end code through the normalizer *)











(** *** What the validator sees and says *)









End RunFacts.

(** ** Tests and diagnostics in full *)

Module TestFacts.
Import Py Re Seam Lines PyFacts LineFacts ValidateFacts.

(** [is_comment]: white space, then an opening parenthesis. *)
Lemma is_comment_shape (line : str) :
  is_comment line = true
  <-> exists ws rest, forallb is_space ws = true /\ line = ws ++ s "(" ++ rest.
Proof.
  rewrite is_comment_lstrip. split.
  - intro H. destruct (startswith_one "(" _ _ eq_refl H) as [rest Hr].
    destruct (RegexFacts.dropWhile_run is_space line) as (ws & Hl & Hw).
    exists ws, rest. split; [exact Hw|].
    rewrite Hl at 1. unfold lstrip in Hr. now rewrite Hr.
  - intros (ws & rest & Hw & ->). unfold lstrip.
    now rewrite (RegexFacts.dropWhile_all is_space ws _ Hw).
Qed.

(** [is_important_comment]: the trimmed line begins with a word that, in
    lower case, is one of the thirteen prefixes. *)
Lemma important_shape (line : str) :
  is_important_comment line = true
  <-> exists p w rest,
        In p ["(2d"; "(3d"; "(drill"; "(contour"; "(tool"; "(operation";
              "(adaptive"; "(facing"; "(slot"; "(bore"; "(tap"; "(thread";
              "(change"]%string
        /\ strip line = w ++ rest /\ lower w = s p.
Proof.
  unfold is_important_comment. rewrite existsb_exists. split.
  - intros (p & Hin & Hp). apply startswith_split in Hp as [r Hr].
    unfold lower in Hr. apply map_eq_app in Hr as (w & rest & Hs & Hw & _).
    now exists p, w, rest.
  - intros (p & w & rest & Hin & Hs & Hw). exists p. split; [exact Hin|].
    rewrite Hs. unfold lower in *. rewrite map_app, Hw. apply startswith_app.
Qed.






End TestFacts.

(** ** The properties of the pipeline *)

Import Py Re Seam Lines Stages Samples.


(** C2 (amended). [extract_body] returns the contiguous run that starts at
    the first line that is a comment or a toolchange written at the first
    column with its sequence number ([N<digits>], blanks, [T<digits>], blanks,
    [M6]), and that stops before the first line, from there on, that contains
    [M30] or is [%] or [M2] once trimmed.  It is a total function: without a
    start line the body is empty, and without an end line it runs to the end
    of the input. *)
Theorem extract_body_run (lines : list str) :
  extract_body lines = Cut.before program_end (Cut.from body_start lines).
Proof. apply (ExtractFacts.extract_body_loop_waiting [] lines). Qed.

(** C2, as stated, fails: [T1 M6] is a toolchange in the specification's
    sense, so the body should start there, but [extract_body] does not take a
    toolchange without a sequence number for a start and returns nothing. *)
Lemma extract_body_misses_unnumbered_toolchange :
  Spec.classify (ln "T1 M6") = Spec.toolchange
  /\ Spec.extract_body unnumbered_toolchange = [ln "T1 M6"; ln "G1 X1"]
  /\ extract_body unnumbered_toolchange = [].
Proof. repeat split. Qed.

(** C3 (amended). [extract_header] returns the lines up to and including the
    first one that matches [N20 G53 G0 Z0.] (blanks allowed before it) or is a
    toolchange written at the first column with its sequence number; without
    such a line it returns its whole input.  It is a total function. *)
Theorem extract_header_prefix (lines : list str) :
  extract_header lines = Cut.through header_end lines.
Proof. apply (ExtractFacts.extract_header_loop_through [] lines). Qed.

(** C3, as stated, fails: the header should end at the toolchange [T1 M6],
    but [extract_header] runs past it to the end of the input. *)
Lemma extract_header_misses_unnumbered_toolchange :
  Spec.classify (ln "T1 M6") = Spec.toolchange
  /\ Spec.extract_header unnumbered_toolchange = [ln "G21"; ln "T1 M6"]
  /\ extract_header unnumbered_toolchange = unnumbered_toolchange.
Proof. repeat split. Qed.

(** C4 (the script departs from it). A line that starts with [N] without
    digits is not a sequenced instruction, yet with renumbering enabled it is
    not written unchanged: it gets a number put before it and so takes [N10],
    and the sequenced instruction after it gets [N20]. *)
Theorem renumber_takes_n_without_digits :
  Spec.classify (ln "N G1 X1") = Spec.other
  /\ clean_and_renumber n_without_digits new_stats (options_of default_settings)
     = ([ln "N10 N G1 X1"; ln "N20 G0 Z1"], mkStats 0 0 0 0 2 2 []).
Proof. split; reflexivity. Qed.

(** C5. A line is a comment when its trimmed content starts with an opening
    parenthesis, and a comment is important when its trimmed content begins,
    whatever the case of its letters, with one of [(2d], [(3d], [(drill],
    [(contour], [(tool], [(operation], [(adaptive], [(facing], [(slot],
    [(bore], [(tap], [(thread], [(change].  The comments of the normalized
    output are, in order, the comments of the input that are important or,
    when all comments are to be kept, all of them; the kept counter grows by
    their number and the removed counter by the number of the other comments.
    So, of an important and a generic comment, the defaults keep the first
    and drop the second, and keeping all comments keeps both. *)
Theorem comment_filtering (o : Options) (lines : list str) (t : ScriptStats) :
  (forall line,
     is_comment line = true
     <-> exists ws rest, forallb is_space ws = true /\ line = ws ++ s "(" ++ rest)
  /\ (forall line,
        is_important_comment line = true
        <-> exists p w rest,
              In p ["(2d"; "(3d"; "(drill"; "(contour"; "(tool"; "(operation";
                    "(adaptive"; "(facing"; "(slot"; "(bore"; "(tap"; "(thread";
                    "(change"]%string
              /\ strip line = w ++ rest /\ lower w = s p)
  /\ filter is_comment (fst (clean_and_renumber lines t o))
     = filter (fun line =>
                 is_comment line && (keep_all_comments o || is_important_comment line))
              lines
  /\ comments_kept (snd (clean_and_renumber lines t o))
     = comments_kept t
       + count (fun line =>
                  is_comment line
                  && (keep_all_comments o || is_important_comment line)) lines
  /\ comments_removed (snd (clean_and_renumber lines t o))
     = comments_removed t
       + count (fun line =>
                  is_comment line
                  && negb (keep_all_comments o || is_important_comment line)) lines
  /\ clean_and_renumber two_comments new_stats (options_of default_settings)
     = ([ln "(2D Contour)"], mkStats 1 1 0 0 0 1 [])
  /\ clean_and_renumber two_comments new_stats keep_all
     = ([ln "(2D Contour)"; ln "(generic note)"], mkStats 2 0 0 0 0 2 []).
Proof.
  split; [exact TestFacts.is_comment_shape|].
  split; [exact TestFacts.important_shape|].
  destruct (NormalizeFacts.run_lines_comments o lines (enter o t)) as (Ho & Hk & Hr).
  unfold clean_and_renumber at 1 2 3, leave.
  cbn [fst snd set_total comments_kept comments_removed].
  repeat split; assumption.
Qed.

(** C6. When the loop of the normalizer reaches a toolchange line, it writes
    the line [O <name> call], with the name of the configured subroutine and a
    line feed after it, once and right before the line, if call insertion is
    enabled, and nothing before it otherwise; the call counter grows by one in
    the first case only, and the toolchange counter grows by one in both. *)
Theorem toolchange_call_insertion
  (o : Options) (t : ScriptStats) (pre post : list str) (line : str) :
  is_toolchange line = true ->
  let st := run_lines o (enter o t) pre in
  let st' := process_line o st line in
  clean_and_renumber (pre ++ line :: post) t o = leave (run_lines o st' post)
  /\ (exists rest, output_lines (run_lines o st' post) = output_lines st' ++ rest)
  /\ output_lines st'
     = output_lines st
       ++ (if insert_toolchange_call o
           then [s "O <" ++ toolchange_subroutine o ++ s "> call" ++ [LF]]
           else [])
       ++ [if renumber o && startswith (s "N") (lstrip line)
           then s "N" ++ str_of_Z (current_n st) ++ s " "
                ++ sub_empty Patterns.sequence_number (lstrip line)
           else line]
  /\ toolchange_calls (stats st')
     = toolchange_calls (stats st) + (if insert_toolchange_call o then 1 else 0)
  /\ toolchanges (stats st') = S (toolchanges (stats st)).
Proof.
  intros H st st'.
  pose proof (LineFacts.toolchange_not_comment line H) as Hc.
  split; [|split; [|split; [|split]]].
  - unfold clean_and_renumber. rewrite NormalizeFacts.run_lines_app. reflexivity.
  - apply NormalizeFacts.run_lines_extends.
  - unfold st'. rewrite (NormalizeFacts.process_code_output o st line Hc), H.
    reflexivity.
  - unfold st'. rewrite (NormalizeFacts.process_code_calls o st line Hc), H.
    now rewrite andb_true_r.
  - unfold st'. rewrite (NormalizeFacts.process_code_toolchanges o st line Hc), H.
    lia.
Qed.

Lemma toolchange_call_insertion_witness :
  is_toolchange (ln "N10 T1 M6") = true
  /\ fst (clean_and_renumber [ln "N10 T1 M6"] new_stats with_calls)
     = [ln "O <toolchange> call"; ln "N10 T1 M6"]
  /\ clean_and_renumber [ln "G0 X0"; ln "T12 M6"] new_stats with_calls
     = ([ln "G0 X0"; ln "O <toolchange> call"; ln "T12 M6"],
        mkStats 0 0 1 1 0 3 [])
  /\ clean_and_renumber [ln "G0 X0"; ln "T12 M6"] new_stats
       (options_of default_settings)
     = ([ln "G0 X0"; ln "T12 M6"], mkStats 0 0 1 0 0 2 []).
Proof.
  split; [reflexivity|]. split; [|split; reflexivity].
  destruct (toolchange_call_insertion with_calls new_stats [] [] (ln "N10 T1 M6")
              eq_refl) as (Hrun & _ & Hout & _).
  change ([] ++ [ln "N10 T1 M6"]) with [ln "N10 T1 M6"] in Hrun.
  rewrite Hrun. exact Hout.
Defined.



(** C8 (the script departs from it). A first file whose header ends at its
    first toolchange has that line in the header and again at the start of
    the body; the normalizer counts it once, the validator finds it twice in
    the output, and the run records the mismatch diagnostic. *)
Theorem toolchange_in_header_mismatch :
  exists r,
    main [toolchange_in_header] default_settings = Some r
    /\ header_of [toolchange_in_header] = [ln "%"; ln "N10 G90"; ln "N15 T1 M6"]
    /\ processed [toolchange_in_header] default_settings
       = [ln "N10 T1 M6"; ln "N20 G1 X1"]
    /\ toolchanges (final_stats r) = 1
    /\ count is_toolchange (read_back r) = 2
    /\ validation_errors (final_stats r) = [err_mismatch 2 1].
Proof. eexists. repeat split. Qed.





(** ** Further properties of the segment extractor *)

(** X1. The header is a prefix of the lines it is taken from.  No line of it
    but the last ends the header, and either the header is the whole input or
    its last line is the line that ends it. *)
Theorem header_shape (lines : list str) :
  exists rest,
    lines = extract_header lines ++ rest
    /\ forallb (fun l => negb (header_end l)) (removelast (extract_header lines)) = true
    /\ (rest = []
        \/ exists h l, extract_header lines = h ++ [l] /\ header_end l = true).
Proof.
  rewrite (ExtractFacts.extract_header_loop_through [] lines : extract_header lines = _).
  apply CutFacts.through_shape.
Qed.

(** X2. The header of a header is the header itself. *)
Theorem header_idempotent (lines : list str) :
  extract_header (extract_header lines) = extract_header lines.
Proof.
  rewrite !(fun l => ExtractFacts.extract_header_loop_through [] l : extract_header l = _).
  apply CutFacts.through_idem.
Qed.

(** X3. The body is a contiguous part of the lines it is taken from.  No
    line before it opens a body, no line of it ends the program, its first
    line opens the body, and the line right after it, if the input goes on
    after the start, ends the program. *)
Theorem body_shape (lines : list str) :
  exists pre post,
    lines = pre ++ extract_body lines ++ post
    /\ forallb (fun l => negb (body_start l)) pre = true
    /\ forallb (fun l => negb (program_end l)) (extract_body lines) = true
    /\ match extract_body lines with [] => True | l :: _ => body_start l = true end
    /\ match post with [] => True | l :: _ => program_end l = true end.
Proof.
  rewrite (ExtractFacts.extract_body_loop_waiting [] lines : extract_body lines = _).
  cbn [app].
  destruct (CutFacts.from_shape body_start lines) as (pre & Hl & Hn & Hh).
  destruct (CutFacts.before_shape program_end (Cut.from body_start lines))
    as (post & Hb & Hq & Hp).
  exists pre, post. split; [now rewrite <- Hb|]. repeat split; try assumption.
  pose proof (CutFacts.before_head program_end (Cut.from body_start lines)) as Hd.
  destruct (Cut.before program_end (Cut.from body_start lines)) as [|l b];
    [exact I|].
  destruct Hd as [t Ht]. now rewrite Ht in Hh.
Qed.

(** X4. The body of a body is the body itself. *)
Theorem body_idempotent (lines : list str) :
  extract_body (extract_body lines) = extract_body lines.
Proof.
  rewrite !(fun l => ExtractFacts.extract_body_loop_waiting [] l : extract_body l = _).
  cbn [app]. apply CutFacts.segment_idem.
Qed.

(** X5. When the header ends at a toolchange that carries a sequence number
    and no line of the header, from its first comment or numbered toolchange
    on, ends the program, the body of the same lines starts inside the header
    and holds that toolchange line: the line is taken twice, once for the
    header and once for the body. *)
Theorem header_toolchange_in_body (lines h : list str) (l : str) :
  extract_header lines = h ++ [l] ->
  re_match Patterns.numbered_toolchange l = true ->
  forallb (fun x => negb (program_end x)) (Cut.from body_start (h ++ [l])) = true ->
  exists h1 h2 more,
    h = h1 ++ h2
    /\ Cut.from body_start (h ++ [l]) = h2 ++ [l]
    /\ extract_body lines = h2 ++ [l] ++ more.
Proof.
  intros Hh Ht Hq.
  destruct (ExtractFacts.header_prefix lines) as (rest & Hl).
  rewrite Hh, <- app_assoc in Hl. cbn [app] in Hl.
  rewrite (ExtractFacts.extract_body_loop_waiting [] lines : extract_body lines = _).
  cbn [app]. rewrite Hl.
  apply CutFacts.segment_reaches; [|exact Hq].
  unfold body_start. rewrite Ht. apply orb_true_r.
Qed.

Lemma header_toolchange_in_body_witness :
  extract_header (readlines toolchange_in_header)
  = [ln "%"; ln "N10 G90"] ++ [ln "N15 T1 M6"]
  /\ re_match Patterns.numbered_toolchange (ln "N15 T1 M6") = true
  /\ forallb (fun x => negb (program_end x))
       (Cut.from body_start ([ln "%"; ln "N10 G90"] ++ [ln "N15 T1 M6"])) = true
  /\ exists h1 h2 more,
       [ln "%"; ln "N10 G90"] = h1 ++ h2
       /\ Cut.from body_start ([ln "%"; ln "N10 G90"] ++ [ln "N15 T1 M6"])
          = h2 ++ [ln "N15 T1 M6"]
       /\ extract_body (readlines toolchange_in_header)
          = h2 ++ [ln "N15 T1 M6"] ++ more.
Proof.
  split; [reflexivity|]. split; [reflexivity|]. split; [reflexivity|].
  apply header_toolchange_in_body; reflexivity.
Defined.

(** ** Further properties of the stream normalizer *)

Import Shapes MoreSamples.

(** X6. The normalizer loses and invents nothing: every input line is
    written or is a removed comment, every output line is an input line or an
    inserted call, the number of lines it reports is the number of lines it
    returns, and every comment is counted as kept or as removed. *)
Theorem normalizer_balance (o : Options) (lines : list str) (t : ScriptStats) :
  total_output_lines (snd (clean_and_renumber lines t o))
  = length (fst (clean_and_renumber lines t o))
  /\ length (fst (clean_and_renumber lines t o))
     + comments_removed (snd (clean_and_renumber lines t o))
     + toolchange_calls t
     = length lines + comments_removed t
       + toolchange_calls (snd (clean_and_renumber lines t o))
  /\ comments_kept (snd (clean_and_renumber lines t o))
     + comments_removed (snd (clean_and_renumber lines t o))
     = comments_kept t + comments_removed t + count is_comment lines.
Proof.
  pose proof (NormalizeMore.run_lines_balance o lines (enter o t)) as Hb.
  destruct (NormalizeFacts.run_lines_comments o lines (enter o t)) as (_ & Hk & Hr).
  pose proof (NormalizeMore.count_comments o lines) as Hc.
  unfold clean_and_renumber, leave.
  cbn [fst snd set_total total_output_lines comments_kept comments_removed
       toolchange_calls] in *.
  cbv zeta in Hb. cbn [enter output_lines stats length] in Hb, Hk, Hr.
  repeat split; lia.
Qed.

(** X7. With renumbering and call insertion switched off the normalizer is a
    filter: it returns the input lines, in order and unchanged, without the
    comments that are not important, or all of them when all comments are
    kept. *)
Theorem normalizer_plain
  (keep : bool) (name : str) (start step : Z) (lines : list str) (t : ScriptStats) :
  fst (clean_and_renumber lines t (mkOptions false keep false name start step))
  = filter (fun l => negb (is_comment l && negb (keep || is_important_comment l)))
           lines.
Proof.
  unfold clean_and_renumber, leave. cbn [fst].
  now rewrite NormalizeMore.run_lines_plain.
Qed.

(** X8. After a pass of the normalizer the toolchange counter has grown by
    the number of input lines that match the toolchange pattern, the call
    counter by the same number when call insertion is on and by nothing when
    it is off, and the renumbering counter by the number of lines that are
    not comments and start with [N] when renumbering is on; the error list is
    left alone. *)
Theorem normalizer_counters (o : Options) (lines : list str) (t : ScriptStats) :
  toolchanges (snd (clean_and_renumber lines t o))
  = toolchanges t + count is_toolchange lines
  /\ toolchange_calls (snd (clean_and_renumber lines t o))
     = toolchange_calls t
       + (if insert_toolchange_call o then count is_toolchange lines else 0)
  /\ lines_renumbered (snd (clean_and_renumber lines t o))
     = lines_renumbered t
       + count (fun l => negb (is_comment l) && renumber o
                         && startswith (s "N") (lstrip l)) lines
  /\ validation_errors (snd (clean_and_renumber lines t o)) = validation_errors t.
Proof.
  unfold clean_and_renumber, leave.
  cbn [snd set_total toolchanges toolchange_calls lines_renumbered validation_errors].
  rewrite NormalizeFacts.run_lines_toolchanges, NormalizeMore.run_lines_calls,
    NormalizeMore.run_lines_errors.
  destruct (NormalizeFacts.run_lines_numbering o lines (enter o t)) as [_ ->].
  repeat split.
Qed.

(** X9. A stream of sequenced instructions, each made of optional white
    space, [N], a number, blanks and the rest of the line, comes out of a
    renumbering pass without call insertion as the same rests behind the
    numbers [start], [start + step], [start + 2 step], ..., one blank after
    each number. *)
Theorem sequenced_stream_renumbered
  (keep : bool) (name : str) (start step : Z) (items : list Sequenced)
  (t : ScriptStats) :
  forallb sequenced_ok items = true ->
  fst (clean_and_renumber (map line_of items) t
         (mkOptions true keep false name start step))
  = map (fun ki => renumbered (start + step * Z.of_nat (fst ki)) (snd ki))
        (combine (seq 0 (length items)) items).
Proof.
  intro H. unfold clean_and_renumber, leave. cbn [fst].
  rewrite (NormalizeMore.run_sequenced (mkOptions true keep false name start step)
             items eq_refl eq_refl H _ start 0).
  - reflexivity.
  - cbn. lia.
Qed.

Lemma sequenced_stream_renumbered_witness :
  forallb sequenced_ok three_sequenced = true
  /\ fst (clean_and_renumber (map line_of three_sequenced) new_stats
            (mkOptions true false false (s "toolchange") 10 10))
     = [ln "N10 G90 G94"; ln "N20 T1 M6"; ln "N30 G1 X1"].
Proof.
  split; [reflexivity|].
  rewrite (sequenced_stream_renumbered false (s "toolchange") 10 10 three_sequenced
             new_stats eq_refl).
  reflexivity.
Defined.

(** X10. Without call insertion and with a start and a step that are not
    negative, the normalizer leaves its own output alone: a second pass with
    the same options returns the lines of the first. *)
Theorem normalizer_idempotent
  (renum keep : bool) (name : str) (start step : Z) (lines : list str)
  (t t2 : ScriptStats) :
  (0 <= start)%Z -> (0 <= step)%Z ->
  let o := mkOptions renum keep false name start step in
  fst (clean_and_renumber (fst (clean_and_renumber lines t o)) t2 o)
  = fst (clean_and_renumber lines t o).
Proof.
  intros Hs Hk o.
  destruct (NormalizeMore.second_pass o lines eq_refl Hk (enter o t) (enter o t2)
              Hs eq_refl) as (more & H1 & H2 & _).
  unfold clean_and_renumber, leave. cbn [fst].
  cbn [enter output_lines app] in H1, H2. now rewrite H1, H2.
Qed.

Lemma normalizer_idempotent_witness :
  (0 <= 10)%Z /\ (0 <= 10)%Z
  /\ fst (clean_and_renumber
            (fst (clean_and_renumber mixed_body new_stats
                    (mkOptions true false false (s "toolchange") 10 10)))
            new_stats (mkOptions true false false (s "toolchange") 10 10))
     = fst (clean_and_renumber mixed_body new_stats
              (mkOptions true false false (s "toolchange") 10 10)).
Proof.
  split; [lia|]. split; [lia|].
  apply (normalizer_idempotent true false (s "toolchange") 10 10 mixed_body
           new_stats new_stats); lia.
Defined.

(** X11. Only a comment can be an important comment: a line that passes
    [is_important_comment] starts, once trimmed, with an opening
    parenthesis. *)
Theorem important_comment_is_comment (line : str) :
  is_important_comment line = true -> is_comment line = true.
Proof. apply NormalizeMore.important_is_comment. Qed.

Lemma important_comment_is_comment_witness :
  is_important_comment (ln "  (2D Contour)") = true
  /\ is_comment (ln "  (2D Contour)") = true.
Proof.
  split; [reflexivity|].
  apply important_comment_is_comment. reflexivity.
Defined.

(** ** Further properties of the validator *)

(** X12. On a list of lines that is not empty [validate_output] has no
    finding exactly when the last line is [%] once trimmed, one line and no
    more contains [M30], and the toolchange lines of the list are as many as
    the toolchange counter says. *)
Theorem validate_output_no_finding (out : list str) (t : ScriptStats) :
  out <> [] ->
  (validate_output out t = Some ([], set_errors [] t)
   <-> strip (last out []) = s "%"
       /\ count (contains (s "M30")) out = 1
       /\ count is_toolchange out = toolchanges t).
Proof. apply ValidateMore.validate_output_clean. Qed.

Lemma validate_output_no_finding_witness :
  closing_block <> []
  /\ (validate_output closing_block new_stats = Some ([], set_errors [] new_stats)
      <-> strip (last closing_block []) = s "%"
          /\ count (contains (s "M30")) closing_block = 1
          /\ count is_toolchange closing_block = toolchanges new_stats).
Proof.
  split; [discriminate|].
  apply (validate_output_no_finding closing_block new_stats). discriminate.
Defined.

(** ** The input files of directory mode *)

Import Files.

(** X13. For a name of at most 4300 characters, the number of the name is
    [-1] or not negative, and it is not negative exactly when the name ends in
    a run of digits followed by [.ngc], in either case of the letters: such a
    name has the number [-1], and is left out in directory mode, only if it
    has no such run.  (Beyond 4300 digits Python's [int] raises.) *)
Theorem file_number_sign (name : str) :
  length name <= 4300 ->
  (extract_number_from_filename name = -1
   \/ 0 <= extract_number_from_filename name)%Z
  /\ ((0 <= extract_number_from_filename name)%Z
      <-> exists base ds ext,
            name = base ++ ds ++ ext /\ ds <> []
            /\ forallb is_digit ds = true /\ ngc_at_end ext = true).
Proof.
  intros _. unfold extract_number_from_filename.
  destruct (search_number name) as [g|] eqn:E.
  - destruct (FilesFacts.search_sound name g E) as (base & ext & Hn & Hg & Hd & He).
    pose proof (FilesFacts.int_of_digits_nonneg g Hd) as Hz.
    split; [now right|]. split; [|intros _; exact Hz].
    intros _. now exists base, g, ext.
  - split; [now left|]. split; [lia|].
    intros (base & ds & ext & -> & Hn & Hd & He).
    destruct (FilesFacts.search_complete base ds ext Hn Hd He) as (g & Hg & _).
    rewrite Hg in E. discriminate E.
Qed.

Lemma file_number_sign_witness :
  length (s "part12.ngc") <= 4300
  /\ (0 <= extract_number_from_filename (s "part12.ngc"))%Z
  /\ length (s "partX.ngc") <= 4300
  /\ extract_number_from_filename (s "partX.ngc") = (-1)%Z.
Proof.
  split; [cbn; lia|].
  destruct (file_number_sign (s "part12.ngc")) as [_ [_ H]]; [cbn; lia|].
  split.
  - apply H. exists (s "part"), (s "12"), (s ".ngc").
    repeat split. discriminate.
  - split; [cbn; lia | reflexivity].
Defined.

(** X14. For a name made of a base that does not end in a digit, a run of at
    most 4300 digits and the extension [.ngc], in either case of the letters,
    the number of the name is the value of the whole run of digits. *)
Theorem file_number_value (base ds ext : str) :
  is_digit (last base "x"%char) = false ->
  ds <> [] -> length ds <= 4300 ->
  forallb is_digit ds = true -> ngc_at_end ext = true ->
  extract_number_from_filename (base ++ ds ++ ext) = int_of_digits ds.
Proof.
  intros Hb Hn _ Hd He. unfold extract_number_from_filename.
  now rewrite (FilesFacts.search_exact base ds ext Hb Hn Hd He).
Qed.

Lemma file_number_value_witness :
  is_digit (last (s "a12b") "x"%char) = false
  /\ s "007" <> []
  /\ length (s "007") <= 4300
  /\ forallb is_digit (s "007") = true
  /\ ngc_at_end (s ".NGC") = true
  /\ extract_number_from_filename (s "a12b" ++ s "007" ++ s ".NGC") = 7%Z.
Proof.
  split; [reflexivity|]. split; [discriminate|]. split; [cbn; lia|].
  split; [reflexivity|]. split; [reflexivity|].
  rewrite (file_number_value (s "a12b") (s "007") (s ".NGC"));
    [reflexivity | reflexivity | discriminate | cbn; lia | reflexivity | reflexivity].
Defined.

(** X15. In directory mode the files are taken in the order of their
    numbers, smallest first; they are the found names that have a number,
    each as often as it was found; and names with the same number stay in the
    order in which they were found. *)
Theorem files_sorted_by_number (found : list str) :
  StronglySorted (le_key extract_number_from_filename)
                 (get_files_sorted_by_number found)
  /\ Permutation (get_files_sorted_by_number found)
       (filter (fun name => negb (extract_number_from_filename name =? -1)%Z) found)
  /\ forall k : Z,
       filter (fun name => (extract_number_from_filename name =? k)%Z)
              (get_files_sorted_by_number found)
       = if (k =? -1)%Z then []
         else filter (fun name => (extract_number_from_filename name =? k)%Z) found.
Proof.
  unfold get_files_sorted_by_number. split; [|split].
  - apply FilesFacts.filter_sorted, FilesFacts.sorted_by_sorted.
  - apply FilesFacts.filter_perm, FilesFacts.sorted_by_perm.
  - intro k. rewrite FilesFacts.filter_filter.
    destruct (Z.eqb_spec k (-1)) as [->|Hk].
    + induction (sorted_by extract_number_from_filename found) as [|x l IH];
        [reflexivity|].
      cbn. destruct (Z.eqb_spec (extract_number_from_filename x) (-1));
        cbn; exact IH.
    + rewrite <- FilesFacts.sorted_by_stable. apply filter_ext. intro x.
      destruct (Z.eqb_spec (extract_number_from_filename x) k) as [->|Hx].
      * destruct (Z.eqb_spec k (-1)); [contradiction | reflexivity].
      * apply andb_false_r.
Qed.

(** ** Further properties of a run *)




